(** * Sharder: the cluster manager and the worker-side cluster agent

    A shallow embedding of [src/cluster/ClusterManager.ts] and
    [src/cluster/Cluster.ts].  One [World] is one operating-system process:
    it holds the [ClusterManager] object, what Node's [cluster] module knows
    (master or worker, the table of live workers, the next worker id), the
    [Cluster] agents that listen for IPC messages, and the chronological
    trace of everything the process did to the outside (forks, IPC sends,
    log lines, gateway clients created and connected).

    Numbers are integers ([Z]); NaN, infinities and fractions appear only as
    results of the one division in the program ([JS.number]).  Values of
    TypeScript type [any] (the payload of an IPC message) are [JS.value]. *)

From Stdlib Require Import ZArith String List Lia DecimalString.
From stdpp Require Import gmap strings pretty list fin_maps.

Local Open Scope string_scope.
Local Open Scope Z_scope.
Local Open Scope list_scope.

(* ------------------------------------------------------------------ *)
(** ** JavaScript values *)

Module JS.

Inductive value : Type :=
| VUndefined
| VBool (b : bool)
| VNumber (n : Z)
| VString (s : string)
| VStrings (l : list string).   (* a [string[]] *)

#[global] Instance value_eq_dec : EqDecision value.
Proof. solve_decision. Defined.

(** Results of arithmetic that may leave the integers. *)
Inductive number : Type :=
| Finite (z : Z)
| Infinity
| NegInfinity
| NaN.

#[global] Instance number_eq_dec : EqDecision number.
Proof. solve_decision. Defined.

(** [o.k]: a missing property reads as [undefined]. *)
Definition get (o : gmap string value) (k : string) : value :=
  default VUndefined (o !! k).

(** ToBoolean. *)
Definition truthy (v : value) : bool :=
  match v with
  | VUndefined => false
  | VBool b => b
  | VNumber n => negb (n =? 0)%Z
  | VString s => negb (String.eqb s "")
  | VStrings _ => true
  end.

(** [===]. Arrays are compared by identity in JavaScript; no two array
    values of this model are the same object. *)
Definition strict_eq (a b : value) : bool :=
  match a, b with
  | VStrings _, _ | _, VStrings _ => false
  | _, _ => bool_decide (a = b)
  end.

(** StringToNumber on the strings that denote an integer in plain decimal
    notation (and the empty string, which is 0); every other string reads
    as NaN here. *)
Definition string_to_number (s : string) : number :=
  if String.eqb s "" then Finite 0
  else match NilZero.int_of_string s with
       | Some i => Finite (Z.of_int i)
       | None => NaN
       end.

(** ToNumber. *)
Definition to_number (v : value) : number :=
  match v with
  | VUndefined => NaN
  | VBool b => Finite (if b then 1 else 0)
  | VNumber n => Finite n
  | VString s => string_to_number s
  | VStrings l => string_to_number (String.concat "," l)
  end.

(** [a > b] on numbers: false as soon as one side is NaN. *)
Definition number_gt (a b : number) : bool :=
  match a, b with
  | NaN, _ | _, NaN => false
  | Finite x, Finite y => (y <? x)%Z
  | Infinity, Infinity => false
  | Infinity, _ => true
  | _, Infinity => false
  | NegInfinity, _ => false
  | Finite _, NegInfinity => true
  end.

(** [v > n] for a value against a number literal. *)
Definition gt (v : value) (n : Z) : bool :=
  number_gt (to_number v) (Finite n).

(** [a / b] followed by [Math.ceil], on integer operands.  The quotient
    of two integers is rounded up exactly; a zero divisor gives an
    infinity of the sign of [a], or NaN for [0 / 0]. *)
Definition ceil_div (a b : Z) : number :=
  if (b =? 0)%Z then
    (if (0 <? a)%Z then Infinity else if (a <? 0)%Z then NegInfinity else NaN)
  else Finite (- ((- a) / b)).

(** [Math.max(a, b)] with an integer first argument. *)
Definition max (a : Z) (b : number) : number :=
  match b with
  | Finite z => Finite (Z.max a z)
  | Infinity => Infinity
  | NegInfinity => Finite a
  | NaN => NaN
  end.

End JS.

Import JS.

Abbreviation object := (gmap string value).

(** A template literal or a log argument: its pieces in order, the
    interpolated values left as values. *)
Abbreviation template := (list value).

(* ------------------------------------------------------------------ *)
(** ** Data model *)

(** [RawCluster] (Cluster.ts): an entry of the public [clusters] map. *)
Module RawCluster.
Record t : Type := {
  workerID : Z;
  shardCount : Z;
  firstShardID : Z;
  lastShardID : Z
}.
End RawCluster.

(** Modelled from the spec: the declaration of [ClusterConfig] is not in
    [Cluster.ts]; the manager reads [id] and [workerId] and writes
    [workerId], the other attributes are those of the data model
    (section 3). [workerId] is absent until the cluster is spawned. *)
Module ClusterConfig.
Record t : Type := {
  id : Z;
  shardCount : Z;
  firstShardId : Z;
  lastShardId : Z;
  workerId : option Z
}.

Definition set_workerId (w : Z) (c : t) : t :=
  {| id := id c; shardCount := shardCount c; firstShardId := firstShardId c;
     lastShardId := lastShardId c; workerId := Some w |}.
End ClusterConfig.

Record WebhookOptions : Type := { webhook_id : string; webhook_token : string }.

Record WebhookColorOptions : Type := {
  color_success : Z; color_error : Z; color_warning : Z
}.

Record Webhooks : Type := {
  webhooks_cluster : option WebhookOptions;
  webhooks_shard : option WebhookOptions;
  webhooks_colors : option WebhookColorOptions
}.

(** [ClusterManagerOptions] without the two injected objects ([logger],
    [clientBase]), whose calls are recorded in the trace instead. *)
Module Options.
Record t : Type := {
  clientOptions : object;
  startUpLogoPath : string;
  launchModulePath : string;
  debugMode : bool;
  useSyncedRequestHandler : bool;
  showStartupStats : bool;
  shardCountOverride : Z;
  firstShardId : Z;
  lastShardId : Z;
  guildsPerShard : Z;
  clusterIdOffset : Z;
  clusterTimeout : Z;
  ipcTimeout : Z;
  statsUpdateInterval : Z;
  webhooks : option Webhooks
}.

(** [Partial<ClusterManagerOptions>]. *)
Record partial : Type := {
  p_clientOptions : option object;
  p_startUpLogoPath : option string;
  p_launchModulePath : option string;
  p_debugMode : option bool;
  p_useSyncedRequestHandler : option bool;
  p_showStartupStats : option bool;
  p_shardCountOverride : option Z;
  p_firstShardId : option Z;
  p_lastShardId : option Z;
  p_guildsPerShard : option Z;
  p_clusterIdOffset : option Z;
  p_clusterTimeout : option Z;
  p_ipcTimeout : option Z;
  p_statsUpdateInterval : option Z;
  p_webhooks : option Webhooks
}.

(** [{}], the default argument of the constructor. *)
Definition empty : partial :=
  {| p_clientOptions := None; p_startUpLogoPath := None;
     p_launchModulePath := None; p_debugMode := None;
     p_useSyncedRequestHandler := None; p_showStartupStats := None;
     p_shardCountOverride := None; p_firstShardId := None;
     p_lastShardId := None; p_guildsPerShard := None;
     p_clusterIdOffset := None; p_clusterTimeout := None;
     p_ipcTimeout := None; p_statsUpdateInterval := None;
     p_webhooks := None |}.

(** The [options.x = options.x ?? d] lines of the constructor. *)
Definition with_defaults (o : partial) : t :=
  {| clientOptions := default ∅ (p_clientOptions o);
     startUpLogoPath := default "" (p_startUpLogoPath o);
     launchModulePath := default "" (p_launchModulePath o);
     debugMode := default false (p_debugMode o);
     useSyncedRequestHandler := default true (p_useSyncedRequestHandler o);
     showStartupStats := default true (p_showStartupStats o);
     shardCountOverride := default 0 (p_shardCountOverride o);
     firstShardId := default 0 (p_firstShardId o);
     lastShardId := default 0 (p_lastShardId o);
     guildsPerShard := default 1500 (p_guildsPerShard o);
     clusterIdOffset := default 0 (p_clusterIdOffset o);
     clusterTimeout := default 5000 (p_clusterTimeout o);
     ipcTimeout := default 15000 (p_ipcTimeout o);
     statsUpdateInterval := default 0 (p_statsUpdateInterval o);
     webhooks := p_webhooks o |}.

(** A write into the [clientOptions] object. *)
Definition set_clientOptions (f : object → object) (o : t) : t :=
  {| clientOptions := f (clientOptions o);
     startUpLogoPath := startUpLogoPath o;
     launchModulePath := launchModulePath o;
     debugMode := debugMode o;
     useSyncedRequestHandler := useSyncedRequestHandler o;
     showStartupStats := showStartupStats o;
     shardCountOverride := shardCountOverride o;
     firstShardId := firstShardId o;
     lastShardId := lastShardId o;
     guildsPerShard := guildsPerShard o;
     clusterIdOffset := clusterIdOffset o;
     clusterTimeout := clusterTimeout o;
     ipcTimeout := ipcTimeout o;
     statsUpdateInterval := statsUpdateInterval o;
     webhooks := webhooks o |}.

(** The options other than [clientOptions]. *)
Definition others (o : t) : t := set_clientOptions (λ _, ∅) o.
End Options.

Record ClusterManagerStats : Type := {
  stats_shards : Z;
  stats_clusters : list object;
  stats_clustersLaunched : Z;
  stats_guilds : Z;
  stats_users : Z;
  stats_channels : Z;
  stats_ramUsage : Z;
  stats_voiceConnections : Z
}.

(** What [restClient.getBotGateway()] resolves to. *)
Record SessionData : Type := { shards : Z }.

(** The file behind [startUpLogoPath]: its joined path, and its contents
    when [readFileSync] succeeds. *)
Record LogoFile : Type := { logo_path : string; logo_contents : option string }.

(* ------------------------------------------------------------------ *)
(** ** Errors, outcomes, effects *)

Inductive exn : Type :=
| Error (message : string)
| TypeError (message : string)
| RangeError (message : string).

(** How a call ends: it returns (a promise resolves), it throws (a promise
    rejects), or the process exits. *)
Inductive outcome (A : Type) : Type :=
| Ok (a : A)
| Throw (e : exn)
| Exit (code : Z).

Arguments Ok {A} a.
Arguments Throw {A} e.
Arguments Exit {A} code.

(** The gateway client made by [new clientBase(token, clientOptions)]. *)
Record Client : Type := { client_token : string; client_options : object }.

Inductive effect : Type :=
| Fork (worker : Z)                              (* cluster.fork() *)
| Send (worker : Z) (message : object)           (* worker.send(message) *)
| SetupMaster                                    (* cluster.setupMaster *)
| ProcessOn (event : string)                     (* process.on(event, ..) *)
| ClusterOn (event : string)                     (* cluster.on(event, ..) *)
| QueueOn (event : string)                       (* this.queue.on(event, ..) *)
| NextTick                                       (* process.nextTick(..) *)
| ConsoleClear
| ConsoleLog (args : list template)
| ConsoleLogMessage (message : object)           (* console.log(message) *)
| LoggerInfo (args : list template)
| LoggerError (args : list template)
| ExecuteWebhook (id token : string) (embed : object)
| NewRestClient (token : string)                 (* new Client(token, {restMode}) *)
| NewClient (c : Client)                         (* new clientBase(..) *)
| ClientOn (event : string)                      (* client.on(event, ..) *)
| ClientConnect.                                 (* client.connect() *)

(* ------------------------------------------------------------------ *)
(** ** Strategies

    [../struct/Strategy] is not part of the sources.  A strategy receives
    the manager and drives it through its public methods; it is modelled as
    the tree of the method calls it makes, each continuation taking the
    outcome of the call before it. *)

(** The [type] argument of [sendWebhook]. *)
Inductive WebhookType : Type := cluster | shard.

Inductive call : Type :=
| StartCluster (clusterId : Z)
| AddCluster (config : ClusterConfig.t)
| RemoveCluster (id : Z)
| GetCluster (id : Z)
| IsMaster
| FetchInfo (start : Z) (eventName : string) (v : value)
| UpdateStats (clusters : list Z) (start : Z)
| Broadcast (start : Z) (message : object)
| SendTo (clusterID : Z) (message : object)
| SendWebhook (type : WebhookType) (embed : object)
| FetchGuildCount (gateway : option SessionData)
| FetchShardCount (gateway : option SessionData).

Inductive answer : Type :=
| AUnit
| ABool (b : bool)
| ANumber (n : number)
| AConfig (c : option ClusterConfig.t).

Inductive script : Type :=
| Return
| Raise (e : exn)
| Do (c : call) (k : outcome answer → script).

(** Modelled from the spec: the interface of the partitioning strategy
    (section 4.1), [run(manager)], with the [name] that [launch] logs. It
    sees the manager's options and acts through the manager's methods. *)
Module IClusterStrategy.
Record t : Type := { name : string; run : Options.t → script }.
End IClusterStrategy.

(** Modelled from the spec: the interface of the connect scheduling
    strategy (section 4.3), [run(manager, configs)]. *)
Module IConnectStrategy.
Record t : Type := {
  name : string;
  run : Options.t → list ClusterConfig.t → script
}.
End IConnectStrategy.

(** Modelled from the spec: the reconnect strategy's interface (section
    4.5), [decide(manager, clusterId, exitCode, priorAttempts)] returning a
    restart decision. *)
Inductive RestartDecision : Type :=
| restartNow
| restartAfter (delay : Z)
| giveUp.

Module IReconnectStrategy.
Record t : Type := {
  name : string;
  decide : Z → Z → nat → RestartDecision
}.
End IReconnectStrategy.

(* ------------------------------------------------------------------ *)
(** ** The manager, the agent, the process *)

(** The constructor stores one object twice, as [this.clientOptions] and as
    [this.options.clientOptions]; the record holds it once, inside
    [options], and [clientOptions] reads it there, so that a write through
    either name is seen through both. *)
Module ClusterManager.
Record t : Type := {
  token : string;
  options : Options.t;
  webhooks : Webhooks;
  stats : ClusterManagerStats;
  clusterStrategy : IClusterStrategy.t;
  connectStrategy : IConnectStrategy.t;
  reconnectStrategy : IReconnectStrategy.t;
  clusters : gmap Z RawCluster.t;       (* public clusters *)
  workers : gmap Z Z;                   (* worker id -> cluster id *)
  callbacks : gmap string Z;
  clusters_ : list ClusterConfig.t      (* #clusters *)
}.

Definition clientOptions (m : t) : object := Options.clientOptions (options m).

Definition set_clientOptions (f : object → object) (m : t) : t :=
  {| token := token m;
     options := Options.set_clientOptions f (options m);
     webhooks := webhooks m; stats := stats m;
     clusterStrategy := clusterStrategy m;
     connectStrategy := connectStrategy m;
     reconnectStrategy := reconnectStrategy m;
     clusters := clusters m; workers := workers m;
     callbacks := callbacks m; clusters_ := clusters_ m |}.

Definition set_clusterStrategy (s : IClusterStrategy.t) (m : t) : t :=
  {| token := token m;
     options := options m; webhooks := webhooks m; stats := stats m;
     clusterStrategy := s;
     connectStrategy := connectStrategy m;
     reconnectStrategy := reconnectStrategy m;
     clusters := clusters m; workers := workers m;
     callbacks := callbacks m; clusters_ := clusters_ m |}.

Definition set_connectStrategy (s : IConnectStrategy.t) (m : t) : t :=
  {| token := token m;
     options := options m; webhooks := webhooks m; stats := stats m;
     clusterStrategy := clusterStrategy m;
     connectStrategy := s;
     reconnectStrategy := reconnectStrategy m;
     clusters := clusters m; workers := workers m;
     callbacks := callbacks m; clusters_ := clusters_ m |}.

Definition set_reconnectStrategy (s : IReconnectStrategy.t) (m : t) : t :=
  {| token := token m;
     options := options m; webhooks := webhooks m; stats := stats m;
     clusterStrategy := clusterStrategy m;
     connectStrategy := connectStrategy m;
     reconnectStrategy := s;
     clusters := clusters m; workers := workers m;
     callbacks := callbacks m; clusters_ := clusters_ m |}.

Definition set_workers (f : gmap Z Z → gmap Z Z) (m : t) : t :=
  {| token := token m;
     options := options m; webhooks := webhooks m; stats := stats m;
     clusterStrategy := clusterStrategy m;
     connectStrategy := connectStrategy m;
     reconnectStrategy := reconnectStrategy m;
     clusters := clusters m; workers := f (workers m);
     callbacks := callbacks m; clusters_ := clusters_ m |}.

Definition set_clusters_ (f : list ClusterConfig.t → list ClusterConfig.t)
    (m : t) : t :=
  {| token := token m;
     options := options m; webhooks := webhooks m; stats := stats m;
     clusterStrategy := clusterStrategy m;
     connectStrategy := connectStrategy m;
     reconnectStrategy := reconnectStrategy m;
     clusters := clusters m; workers := workers m;
     callbacks := callbacks m; clusters_ := f (clusters_ m) |}.
End ClusterManager.

(** The worker-side [Cluster]. Its fields are assigned from the IPC
    message, whose type is [any]. *)
Module Cluster.
Record t : Type := {
  client : option Client;
  id : value;
  shardCount : value;
  maxShards : value;
  firstShardID : value;
  lastShardID : value
}.

(** The field initialisers; [client] is declared and left unset. *)
Definition new : t :=
  {| client := None; id := VNumber (-1); shardCount := VNumber 0;
     maxShards := VNumber 0; firstShardID := VNumber 0;
     lastShardID := VNumber 0 |}.
End Cluster.

(** What Node's [cluster] module holds in this process. *)
Record Node : Type := {
  cluster_isMaster : bool;
  cluster_workers : gset Z;     (* ids of the live workers *)
  next_worker : Z;              (* id of the next forked worker *)
  listeners : nat;              (* how often [launch] registered its handlers *)
  ticks : nat                   (* [process.nextTick] callbacks still to run *)
}.

Record World : Type := {
  manager : ClusterManager.t;
  node : Node;
  agents : list Cluster.t;      (* Clusters spawned in this process *)
  trace : list effect
}.

Definition set_manager (f : ClusterManager.t → ClusterManager.t) (w : World) : World :=
  {| manager := f (manager w); node := node w; agents := agents w;
     trace := trace w |}.

Definition set_node (f : Node → Node) (w : World) : World :=
  {| manager := manager w; node := f (node w); agents := agents w;
     trace := trace w |}.

Definition set_agents (f : list Cluster.t → list Cluster.t) (w : World) : World :=
  {| manager := manager w; node := node w; agents := f (agents w);
     trace := trace w |}.

Definition log (e : effect) (w : World) : World :=
  {| manager := manager w; node := node w; agents := agents w;
     trace := trace w ++ [e] |}.

(* ------------------------------------------------------------------ *)
(** ** The monad of a process: state, exceptions, exit *)

Definition M (A : Type) : Type := World → outcome A * World.

Definition ret {A} (a : A) : M A := λ w, (Ok a, w).

Definition bind {A B} (c : M A) (k : A → M B) : M B :=
  λ w, match c w with
       | (Ok a, w') => k a w'
       | (Throw e, w') => (Throw e, w')
       | (Exit n, w') => (Exit n, w')
       end.

Definition throw {A} (e : exn) : M A := λ w, (Throw e, w).

Definition exit {A} (code : Z) : M A := λ w, (Exit code, w).

Definition gets {A} (f : World → A) : M A := λ w, (Ok (f w), w).

Definition modify (f : World → World) : M unit := λ w, (Ok tt, f w).

Definition emit (e : effect) : M unit := modify (log e).

(** [try { c } catch (e) { h e }]. *)
Definition catch {A} (c : M A) (h : exn → M A) : M A :=
  λ w, match c w with
       | (Throw e, w') => h e w'
       | r => r
       end.

Declare Scope proc_scope.
Delimit Scope proc_scope with proc.
Bind Scope proc_scope with M.

Notation "x <- c ;; k" := (bind c (λ x, k))
  (at level 100, c at next level, right associativity) : proc_scope.
Notation "c ;; k" := (bind c (λ _, k))
  (at level 100, right associativity) : proc_scope.

Local Open Scope proc_scope.

(** Run [c] once per registered listener, in order; a throwing listener
    ends the dispatch. *)
Fixpoint dispatch (n : nat) (c : M unit) : M unit :=
  match n with
  | O => ret tt
  | S n => c ;; dispatch n c
  end.

(* ------------------------------------------------------------------ *)
(** ** Node's [cluster] module *)

(** [cluster.fork()]: only the master has it. The new worker gets the next
    id and joins [cluster.workers]. *)
Definition fork : M Z :=
  master <- gets (λ w, cluster_isMaster (node w)) ;;
  if master : bool then
    worker <- gets (λ w, next_worker (node w)) ;;
    modify (set_node (λ n,
      {| cluster_isMaster := cluster_isMaster n;
         cluster_workers := {[worker]} ∪ cluster_workers n;
         next_worker := worker + 1;
         listeners := listeners n; ticks := ticks n |})) ;;
    emit (Fork worker) ;;
    ret worker
  else throw (TypeError "cluster.fork is not a function").

(** [cluster.workers[workerID]]: the worker when it is live. A worker
    process has no such table; it is kept empty there, so that a use of the
    result right after the lookup ([worker.send] behind the non-null
    assertion) ends in a TypeError there as well. *)
Definition cluster_worker (workerID : Z) : M (option Z) :=
  gets (λ w, if decide (workerID ∈ cluster_workers (node w))
             then Some workerID else None).

(** What indexing the missing [cluster.workers] of a worker process
    throws. *)
Definition no_workers_table (workerID : Z) : exn :=
  TypeError ("Cannot read property '" +:+ pretty workerID +:+ "' of undefined").

(** [worker.send(message)] on the result of a worker lookup: sending on
    [undefined] is a TypeError. *)
Definition send (worker : option Z) (message : object) : M unit :=
  match worker with
  | Some id => emit (Send id message)
  | None => throw (TypeError "Cannot read property 'send' of undefined")
  end.

(* ------------------------------------------------------------------ *)
(** ** ClusterManager *)

(** Callback of [getCluster]: [x.id === id || x.workerId === id]. *)
Definition by_id_or_worker (i : Z) (x : ClusterConfig.t) : Prop :=
  ClusterConfig.id x = i ∨ ClusterConfig.workerId x = Some i.

#[global] Instance by_id_or_worker_dec i x : Decision (by_id_or_worker i x).
Proof. unfold by_id_or_worker. apply _. Defined.

(** Callback of [removeCluster]: [x.id === id]. *)
Definition by_id (i : Z) (x : ClusterConfig.t) : Prop := ClusterConfig.id x = i.

#[global] Instance by_id_dec i x : Decision (by_id i x).
Proof. unfold by_id. apply _. Defined.

(** [this.#clusters.find(..)]: the first matching config, with its place in
    the array, which stands for the identity of the config object. *)
Definition getCluster (i : Z) : M (option (nat * ClusterConfig.t)) :=
  gets (λ w, list_find (by_id_or_worker i) (ClusterManager.clusters_ (manager w))).

Definition setClusterStrategy (strategy : IClusterStrategy.t) : M unit :=
  modify (set_manager (ClusterManager.set_clusterStrategy strategy)).

Definition setConnectStrategy (strategy : IConnectStrategy.t) : M unit :=
  modify (set_manager (ClusterManager.set_connectStrategy strategy)).

Definition setReconnectStrategy (strategy : IReconnectStrategy.t) : M unit :=
  modify (set_manager (ClusterManager.set_reconnectStrategy strategy)).

Definition startCluster (clusterId : Z) : M unit :=
  clusterConfig <- getCluster clusterId ;;
  match clusterConfig with
  | None => ret tt
  | Some (ref, config) =>
      worker <- fork ;;
      modify (set_manager (ClusterManager.set_clusters_
                (λ l, <[ref := ClusterConfig.set_workerId worker config]> l))) ;;
      modify (set_manager (ClusterManager.set_workers (λ m, <[worker := clusterId]> m))) ;;
      emit (LoggerInfo [[VString "Started cluster "; VNumber clusterId]])
  end.

Definition addCluster (config : ClusterConfig.t) : M unit :=
  existing <- getCluster (ClusterConfig.id config) ;;
  match existing with
  | Some _ => throw (Error "Clusters cannot have the same ID.")
  | None => modify (set_manager (ClusterManager.set_clusters_ (λ l, l ++ [config])))
  end.

Definition removeCluster (i : Z) : M unit :=
  index <- gets (λ w, list_find (by_id i) (ClusterManager.clusters_ (manager w))) ;;
  match index with
  | Some (index, _) =>
      modify (set_manager (ClusterManager.set_clusters_ (λ l, delete index l)))
  | None => ret tt
  end.

Definition isMaster : M bool := gets (λ w, cluster_isMaster (node w)).

(** [restartCluster(_worker, _code = 1) {}]. *)
Definition restartCluster (_worker : Z) (_code : Z) : M unit := ret tt.

(** The call stack ran out: the recursion below is bounded by [fuel]. *)
Definition stack_overflow {A} : M A :=
  throw (RangeError "Maximum call stack size exceeded").

Fixpoint fetchInfo_rec (fuel : nat) (start : Z) (eventName : string) (v : value)
    : M unit :=
  match fuel with
  | O => stack_overflow
  | S fuel =>
      _cluster <- gets (λ w, ClusterManager.clusters (manager w) !! start) ;;
      match _cluster with
      | Some _cluster =>
          worker <- cluster_worker (RawCluster.workerID _cluster) ;;
          send worker {[ "eventName" := VString eventName; "value" := v ]} ;;
          fetchInfo_rec fuel (start + 1) eventName v
      | None => ret tt
      end
  end.

(** A run of consecutive ids is never longer than the map, so one frame
    more than the map has entries is always enough (lemma
    [fetchInfo_rec_fuel]). *)
Definition fetchInfo (start : Z) (eventName : string) (v : value) : M unit :=
  fuel <- gets (λ w, S (size (ClusterManager.clusters (manager w)))) ;;
  fetchInfo_rec fuel start eventName v.

(** [clusters[start]] of a [Worker[]]. *)
Definition array_get {A} (l : list A) (i : Z) : option A :=
  if (i <? 0)%Z then None else l !! Z.to_nat i.

Fixpoint updateStats_rec (fuel : nat) (clusters : list Z) (start : Z) : M unit :=
  match fuel with
  | O => stack_overflow
  | S fuel =>
      match array_get clusters start with
      | Some worker =>
          emit (Send worker {[ "eventName" := VString "statsUpdate" ]}) ;;
          updateStats_rec fuel clusters (start + 1)
      | None => ret tt
      end
  end.

Definition updateStats (clusters : list Z) (start : Z) : M unit :=
  updateStats_rec (S (length clusters)) clusters start.

Fixpoint broadcast_rec (fuel : nat) (start : Z) (message : object) : M unit :=
  match fuel with
  | O => stack_overflow
  | S fuel =>
      _cluster <- gets (λ w, ClusterManager.clusters (manager w) !! start) ;;
      match _cluster with
      | Some _cluster =>
          worker <- cluster_worker (RawCluster.workerID _cluster) ;;
          send worker message ;;
          broadcast_rec fuel (start + 1) message
      | None => ret tt
      end
  end.

Definition broadcast (start : Z) (message : object) : M unit :=
  fuel <- gets (λ w, S (size (ClusterManager.clusters (manager w)))) ;;
  broadcast_rec fuel start message.

(** Node keeps [cluster.workers] in the master only; in a worker process it
    is undefined and indexing it throws. [sendTo] is the one method that
    tests the worker before using it, so the missing table (a TypeError) and
    a missing worker (nothing sent) are told apart here. *)
Definition sendTo (clusterID : Z) (message : object) : M unit :=
  _cluster <- gets (λ w, ClusterManager.clusters (manager w) !! clusterID) ;;
  match _cluster with
  | None => throw (TypeError "Cannot read property 'workerID' of undefined")
  | Some _cluster =>
      master <- isMaster ;;
      if master : bool then
        worker <- cluster_worker (RawCluster.workerID _cluster) ;;
        match worker with
        | Some worker => emit (Send worker message)
        | None => ret tt
        end
      else throw (no_workers_table (RawCluster.workerID _cluster))
  end.

Definition sendWebhook (type : WebhookType) (embed : object) : M unit :=
  webhook <- gets (λ w,
    match type with
    | cluster => webhooks_cluster (ClusterManager.webhooks (manager w))
    | shard => webhooks_shard (ClusterManager.webhooks (manager w))
    end) ;;
  match webhook with
  | None => ret tt
  | Some webhook =>
      emit (ExecuteWebhook (webhook_id webhook) (webhook_token webhook) embed)
  end.

(** [logo] is what the file system holds at the joined path. The result is
    the logo to print, if any. *)
Definition getStartUpLogo (logo : LogoFile) : M (option string) :=
  match logo_contents logo with
  | Some contents =>
      ret (if String.eqb contents "" then None else Some contents)
  | None =>
      path <- gets (λ w, Options.startUpLogoPath (ClusterManager.options (manager w))) ;;
      if String.eqb path "" then ret None
      else
        emit (LoggerError [[VString "Failed to locate logo file: ";
                            VString (logo_path logo)]]) ;;
        exit 1
  end.

(** [gateway] is the outcome of [restClient.getBotGateway()], [None] when
    it rejects (the [.catch(() => null)]). *)
Definition fetchGuildCount (gateway : option SessionData) : M Z :=
  match gateway with
  | None => throw (Error "Failed to fetch guild count.")
  | Some sessionData =>
      if (shards sessionData =? 0)%Z then throw (Error "Failed to fetch guild count.")
      else
        emit (LoggerInfo [[VString "Discord recommended ";
                           VNumber (shards sessionData); VString " shards"]]) ;;
        ret (shards sessionData * 1000)
  end.

Definition fetchShardCount (gateway : option SessionData) : M number :=
  guildCount <- fetchGuildCount gateway ;;
  guildsPerShard <- gets (λ w, Options.guildsPerShard (ClusterManager.options (manager w))) ;;
  shardCountOverride <- gets (λ w, Options.shardCountOverride (ClusterManager.options (manager w))) ;;
  let shardCount := ceil_div guildCount guildsPerShard in
  ret (JS.max shardCountOverride shardCount).

Definition exn_message (e : exn) : string :=
  match e with
  | Error m | TypeError m | RangeError m => m
  end.

Definition handleException (error : exn) : M unit :=
  emit (LoggerError [[VString (exn_message error)]]).

Definition handleRejection (reason : exn) : M unit :=
  emit (LoggerError [[VString "Unhandled rejection at Promise:"];
                     [VString "[object Promise]"];
                     [VString "reason:"];
                     [VString (exn_message reason)]]).

(* ------------------------------------------------------------------ *)
(** ** Cluster (worker side) *)

(** [connect()], with [this] passed in and handed back. [Object.assign]
    writes the four options into the manager's own [clientOptions] object,
    over whatever it held; the client is built from that object. The three
    listeners put on the client only write debug lines when the client
    emits; their registration is what is recorded. *)
Definition connect (this : Cluster.t) : M Cluster.t :=
  let loggerSource := [VString "Cluster "; Cluster.id this] in
  token <- gets (λ w, ClusterManager.token (manager w)) ;;
  emit (LoggerInfo [loggerSource;
                    [VString "Connecting with "; Cluster.shardCount this;
                     VString " shards"]]) ;;
  let options : object :=
    {[ "autoreconnect" := VBool true;
       "firstShardID" := Cluster.firstShardID this;
       "lastShardID" := Cluster.lastShardID this;
       "maxShards" := Cluster.shardCount this ]} in
  modify (set_manager (ClusterManager.set_clientOptions (λ o, options ∪ o))) ;;
  clientOptions <- gets (λ w, ClusterManager.clientOptions (manager w)) ;;
  let client := {| client_token := token; client_options := clientOptions |} in
  emit (NewClient client) ;;
  emit (ClientOn "connect") ;;
  emit (ClientOn "shardReady") ;;
  emit (ClientOn "ready") ;;
  emit ClientConnect ;;
  ret {| Cluster.client := Some client; Cluster.id := Cluster.id this;
         Cluster.shardCount := Cluster.shardCount this;
         Cluster.maxShards := Cluster.maxShards this;
         Cluster.firstShardID := Cluster.firstShardID this;
         Cluster.lastShardID := Cluster.lastShardID this |}.

(** The listener that [spawn] installs on [process] for ["message"]. *)
Definition on_message (this : Cluster.t) (message : object) : M Cluster.t :=
  if negb (truthy (get message "name")) then ret this
  else if strict_eq (get message "name") (VString "connect") then
    let this :=
      {| Cluster.client := Cluster.client this;
         Cluster.id := get message "clusterID";
         Cluster.shardCount := get message "shardCount";
         Cluster.maxShards := Cluster.maxShards this;
         Cluster.firstShardID := get message "firstShardID";
         Cluster.lastShardID := get message "lastShardID" |} in
    if gt (Cluster.shardCount this) 0 then connect this else ret this
  else ret this.

(** [spawn()]: from now on the Cluster hears the process's messages. *)
Definition spawn (this : Cluster.t) : M unit :=
  emit (ProcessOn "message") ;;
  modify (set_agents (λ l, l ++ [this])).

(** An IPC message arrives in this process: every spawned Cluster's listener
    runs on it, in the order of registration. *)
Fixpoint deliver (n : nat) (i : nat) (message : object) : M unit :=
  match n with
  | O => ret tt
  | S n =>
      this <- gets (λ w, agents w !! i) ;;
      match this with
      | None => ret tt
      | Some this =>
          this <- on_message this message ;;
          modify (set_agents (λ l, <[i := this]> l)) ;;
          deliver n (S i) message
      end
  end.

Definition process_message (message : object) : M unit :=
  n <- gets (λ w, length (agents w)) ;;
  deliver n 0%nat message.

(* ------------------------------------------------------------------ *)
(** ** Launch and the event handlers *)

(** A strategy's calls, carried out on the manager. *)
Definition perform (c : call) : M answer :=
  match c with
  | StartCluster clusterId => startCluster clusterId ;; ret AUnit
  | AddCluster config => addCluster config ;; ret AUnit
  | RemoveCluster i => removeCluster i ;; ret AUnit
  | GetCluster i => r <- getCluster i ;; ret (AConfig (snd <$> r))
  | IsMaster => b <- isMaster ;; ret (ABool b)
  | FetchInfo start eventName v => fetchInfo start eventName v ;; ret AUnit
  | UpdateStats clusters start => updateStats clusters start ;; ret AUnit
  | Broadcast start message => broadcast start message ;; ret AUnit
  | SendTo clusterID message => sendTo clusterID message ;; ret AUnit
  | SendWebhook type embed => sendWebhook type embed ;; ret AUnit
  | FetchGuildCount gateway => n <- fetchGuildCount gateway ;; ret (ANumber (Finite n))
  | FetchShardCount gateway => n <- fetchShardCount gateway ;; ret (ANumber n)
  end.

Fixpoint run_script (s : script) : M unit :=
  match s with
  | Return => ret tt
  | Raise e => throw e
  | Do c k =>
      λ w, match perform c w with
           | (Exit code, w') => (Exit code, w')
           | (r, w') => run_script (k r) w'
           end
  end.

Definition newline : string := String (Ascii.ascii_of_nat 10) EmptyString.

(** The body of the [process.nextTick] callback of [launch]. *)
Definition launch_body (logo : LogoFile) : M unit :=
  emit ConsoleClear ;;
  logo <- getStartUpLogo logo ;;
  match logo with
  | Some logo => emit (ConsoleLog [[VString logo; VString newline]])
  | None => ret tt
  end ;;
  emit (LoggerInfo [[VString "Initialising clusters..."]]) ;;
  clusterStrategy <- gets (λ w, ClusterManager.clusterStrategy (manager w)) ;;
  emit (LoggerInfo [[VString "Configuring using the '";
                     VString (IClusterStrategy.name clusterStrategy);
                     VString "' strategy"]]) ;;
  options <- gets (λ w, ClusterManager.options (manager w)) ;;
  run_script (IClusterStrategy.run clusterStrategy options) ;;
  clusters <- gets (λ w, ClusterManager.clusters_ (manager w)) ;;
  match clusters with
  | [] => throw (Error "Cluster strategy failed to produce at least 1 cluster.")
  | _ =>
      emit (LoggerInfo [[VString "Finished starting clusters"]]) ;;
      emit SetupMaster ;;
      connectStrategy <- gets (λ w, ClusterManager.connectStrategy (manager w)) ;;
      emit (LoggerInfo [[VString "Connecting using the '";
                         VString (IConnectStrategy.name connectStrategy);
                         VString "' strategy"]]) ;;
      clusters <- gets (λ w, ClusterManager.clusters_ (manager w)) ;;
      run_script (IConnectStrategy.run connectStrategy options clusters)
  end.

(** The callback is [async]: what it throws becomes an unhandled rejection,
    which the process-level handlers that [launch] registered log. *)
Definition launch_tick (logo : LogoFile) : M unit :=
  catch (launch_body logo)
        (λ reason, n <- gets (λ w, listeners (node w)) ;;
                   dispatch n (handleRejection reason)).

Definition launch : M unit :=
  master <- isMaster ;;
  (if master : bool then
     emit (ProcessOn "uncaughtException") ;;
     emit (ProcessOn "unhandledRejection") ;;
     emit NextTick ;;
     modify (set_node (λ n,
       {| cluster_isMaster := cluster_isMaster n;
          cluster_workers := cluster_workers n;
          next_worker := next_worker n;
          listeners := listeners n; ticks := S (ticks n) |}))
   else spawn Cluster.new) ;;
  emit (ClusterOn "message") ;;
  emit (ClusterOn "exit") ;;
  emit (QueueOn "execute") ;;
  modify (set_node (λ n,
    {| cluster_isMaster := cluster_isMaster n;
       cluster_workers := cluster_workers n;
       next_worker := next_worker n;
       listeners := S (listeners n); ticks := ticks n |})).

(** [cluster.on("message", ..)]. *)
Definition on_worker_message (_worker : Z) (message : object) : M unit :=
  emit (ConsoleLogMessage message).

(** [cluster.on("exit", ..)]. *)
Definition on_exit (worker : Z) (code : Z) : M unit :=
  restartCluster worker code.

(** [Map.get] with a key of any type: the keys of [clusters] are numbers. *)
Definition clusters_get (m : gmap Z RawCluster.t) (key : value) : option RawCluster.t :=
  match key with
  | VNumber n => m !! n
  | _ => None
  end.

(** [this.queue.on("execute", ..)]. *)
Definition on_execute (item : object) : M unit :=
  _cluster <- gets (λ w, clusters_get (ClusterManager.clusters (manager w))
                                      (get item "clusterID")) ;;
  match _cluster with
  | Some _cluster =>
      worker <- cluster_worker (RawCluster.workerID _cluster) ;;
      send worker (<[ "eventName" := VString "connect" ]> item)
  | None => ret tt
  end.

(* ------------------------------------------------------------------ *)
(** ** Construction and the life of a process *)

(** The three default strategies, which the constructor takes from
    [../struct/Strategy]. *)
Record Defaults : Type := {
  sharedClusterStrategy : IClusterStrategy.t;
  orderedConnectStrategy : IConnectStrategy.t;
  queuedReconnectStrategy : IReconnectStrategy.t
}.

Definition default_colors : WebhookColorOptions :=
  {| color_success := 0x77dd77; color_error := 0xff6961; color_warning := 0xffb347 |}.

(** [new ClusterManager(token, options)]. *)
Definition constructor (d : Defaults) (token : string) (options : Options.partial)
    : ClusterManager.t :=
  let options := Options.with_defaults options in
  {| ClusterManager.token := token;
     ClusterManager.options := options;
     ClusterManager.webhooks :=
       match Options.webhooks options with
       | Some wh =>
           {| webhooks_cluster := webhooks_cluster wh;
              webhooks_shard := webhooks_shard wh;
              webhooks_colors :=
                Some (default default_colors (webhooks_colors wh)) |}
       | None =>
           {| webhooks_cluster := None; webhooks_shard := None;
              webhooks_colors := Some default_colors |}
       end;
     ClusterManager.stats :=
       {| stats_shards := 0; stats_clusters := []; stats_clustersLaunched := 0;
          stats_guilds := 0; stats_users := 0; stats_channels := 0;
          stats_ramUsage := 0; stats_voiceConnections := 0 |};
     ClusterManager.clusterStrategy := sharedClusterStrategy d;
     ClusterManager.connectStrategy := orderedConnectStrategy d;
     ClusterManager.reconnectStrategy := queuedReconnectStrategy d;
     ClusterManager.clusters := ∅;
     ClusterManager.workers := ∅;
     ClusterManager.callbacks := ∅;
     ClusterManager.clusters_ := [] |}.

(** A process right after it built its manager. Node numbers workers
    from 1. *)
Definition boot (d : Defaults) (master : bool) (token : string)
    (options : Options.partial) : World :=
  {| manager := constructor d token options;
     node := {| cluster_isMaster := master; cluster_workers := ∅;
                next_worker := 1; listeners := 0; ticks := 0 |};
     agents := [];
     trace := [NewRestClient token] |}.

(** What can happen to a process: the embedding program calls a method of
    the manager, or Node delivers an event. *)
Inductive op : Type :=
| Call (c : call)
| SetClusterStrategy (s : IClusterStrategy.t)
| SetConnectStrategy (s : IConnectStrategy.t)
| SetReconnectStrategy (s : IReconnectStrategy.t)
| Launch
| Tick (logo : LogoFile)                         (* a pending nextTick callback runs *)
| WorkerMessage (worker : Z) (message : object)  (* cluster "message" *)
| WorkerExit (worker : Z) (code : Z)             (* cluster "exit" *)
| QueueExecute (item : object)                   (* queue "execute" *)
| ProcessMessage (message : object).             (* process "message" *)

Definition step (o : op) : M unit :=
  match o with
  | Call c => perform c ;; ret tt
  | SetClusterStrategy s => setClusterStrategy s
  | SetConnectStrategy s => setConnectStrategy s
  | SetReconnectStrategy s => setReconnectStrategy s
  | Launch => launch
  | Tick logo =>
      pending <- gets (λ w, ticks (node w)) ;;
      match pending with
      | O => ret tt
      | S pending =>
          modify (set_node (λ n,
            {| cluster_isMaster := cluster_isMaster n;
               cluster_workers := cluster_workers n;
               next_worker := next_worker n;
               listeners := listeners n; ticks := pending |})) ;;
          launch_tick logo
      end
  | WorkerMessage worker message =>
      n <- gets (λ w, listeners (node w)) ;;
      dispatch n (on_worker_message worker message)
  | WorkerExit worker code =>
      (* the worker has left [cluster.workers] when "exit" is emitted *)
      modify (set_node (λ n,
        {| cluster_isMaster := cluster_isMaster n;
           cluster_workers := cluster_workers n ∖ {[worker]};
           next_worker := next_worker n;
           listeners := listeners n; ticks := ticks n |})) ;;
      n <- gets (λ w, listeners (node w)) ;;
      dispatch n (on_exit worker code)
  | QueueExecute item =>
      n <- gets (λ w, listeners (node w)) ;;
      dispatch n (on_execute item)
  | ProcessMessage message => process_message message
  end.

(** A sequence of operations. An exception leaves the state as the throwing
    call left it and the process goes on with the next operation; after
    [process.exit] nothing more happens. *)
Fixpoint run (ops : list op) (w : World) : World :=
  match ops with
  | [] => w
  | o :: ops =>
      match step o w with
      | (Exit _, w') => w'
      | (_, w') => run ops w'
      end
  end.

(** The messages sent over IPC in a trace, with their receivers. *)
Definition sends (t : list effect) : list (Z * object) :=
  omap (λ e, match e with Send worker message => Some (worker, message) | _ => None end) t.

(** The gateway clients created in a trace. *)
Definition clients (t : list effect) : list Client :=
  omap (λ e, match e with NewClient c => Some c | _ => None end) t.

(** How many times [client.connect()] was called in a trace. *)
Definition connects (t : list effect) : nat :=
  length (omap (λ e, match e with ClientConnect => Some tt | _ => None end) t).

(** The clusters registered under the consecutive ids [s], [s+1], ... up to
    the first id that is not registered, at most [fuel] of them. *)
Fixpoint consecutive (fuel : nat) (m : gmap Z RawCluster.t) (s : Z) : list RawCluster.t :=
  match fuel with
  | O => []
  | S fuel =>
      match m !! s with
      | Some c => c :: consecutive fuel m (s + 1)
      | None => []
      end
  end.

(** Every registered cluster's worker is live: what the non-null
    assertions [cluster.workers[..]!] take for granted. *)
Definition workers_live (w : World) : Prop :=
  ∀ k c, ClusterManager.clusters (manager w) !! k = Some c →
         RawCluster.workerID c ∈ cluster_workers (node w).

(** The state with more effects in its trace. *)
Definition logs (es : list effect) (w : World) : World :=
  {| manager := manager w; node := node w; agents := agents w;
     trace := trace w ++ es |}.

(** The effects of one [connect()] of a Cluster [this] on token [token]
    building [client]. *)
Definition connect_effects (this : Cluster.t) (client : Client) : list effect :=
  [ LoggerInfo [[VString "Cluster "; Cluster.id this];
                [VString "Connecting with "; Cluster.shardCount this;
                 VString " shards"]];
    NewClient client;
    ClientOn "connect"; ClientOn "shardReady"; ClientOn "ready";
    ClientConnect ].

(** [this] after the assignments of the ["connect"] case. *)
Definition assigned (this : Cluster.t) (message : object) : Cluster.t :=
  {| Cluster.client := Cluster.client this;
     Cluster.id := get message "clusterID";
     Cluster.shardCount := get message "shardCount";
     Cluster.maxShards := Cluster.maxShards this;
     Cluster.firstShardID := get message "firstShardID";
     Cluster.lastShardID := get message "lastShardID" |}.

(** ** Sample strategies and states *)

Definition config0 : ClusterConfig.t :=
  {| ClusterConfig.id := 0; ClusterConfig.shardCount := 4;
     ClusterConfig.firstShardId := 0; ClusterConfig.lastShardId := 3;
     ClusterConfig.workerId := None |}.

Definition config1 : ClusterConfig.t :=
  {| ClusterConfig.id := 1; ClusterConfig.shardCount := 4;
     ClusterConfig.firstShardId := 4; ClusterConfig.lastShardId := 7;
     ClusterConfig.workerId := None |}.

(** Modelled from the spec: the default strategies are not part of the
    sources. These stand-ins follow sections 4.1, 4.3 and 4.5: two clusters
    of four shards with ids 0 and 1 (scenario A), started one after the
    other in ascending id order, and an immediate restart. *)
Definition sample_defaults : Defaults :=
  {| sharedClusterStrategy :=
       {| IClusterStrategy.name := "shared";
          IClusterStrategy.run := λ _,
            Do (AddCluster config0) (λ _, Do (AddCluster config1) (λ _, Return)) |};
     orderedConnectStrategy :=
       {| IConnectStrategy.name := "ordered";
          IConnectStrategy.run := λ _ configs,
            foldr (λ c k, Do (StartCluster (ClusterConfig.id c)) (λ _, k))
                  Return configs |};
     queuedReconnectStrategy :=
       {| IReconnectStrategy.name := "queued";
          IReconnectStrategy.decide := λ _ _ _, restartNow |} |}.

(** A master process with a fresh manager and default options. *)
Definition fresh : World := boot sample_defaults true "token" Options.empty.

(** A worker process that has launched: one Cluster listens. *)
Definition worker_process : World :=
  run [Launch] (boot sample_defaults false "token" Options.empty).

(** A master whose public [clusters] map was filled from outside with the
    clusters 0, 1 and 3 on the live workers 1, 2 and 4. *)
Definition raw (worker first last : Z) : RawCluster.t :=
  {| RawCluster.workerID := worker; RawCluster.shardCount := last - first + 1;
     RawCluster.firstShardID := first; RawCluster.lastShardID := last |}.

Definition populated : World :=
  {| manager :=
       let m := manager fresh in
       {| ClusterManager.token := ClusterManager.token m;
          ClusterManager.options := ClusterManager.options m;
          ClusterManager.webhooks := ClusterManager.webhooks m;
          ClusterManager.stats := ClusterManager.stats m;
          ClusterManager.clusterStrategy := ClusterManager.clusterStrategy m;
          ClusterManager.connectStrategy := ClusterManager.connectStrategy m;
          ClusterManager.reconnectStrategy := ClusterManager.reconnectStrategy m;
          ClusterManager.clusters :=
            {[ 0 := raw 1 0 3; 1 := raw 2 4 7; 3 := raw 4 12 15 ]};
          ClusterManager.workers := ClusterManager.workers m;
          ClusterManager.callbacks := ClusterManager.callbacks m;
          ClusterManager.clusters_ := ClusterManager.clusters_ m |};
     node := {| cluster_isMaster := true; cluster_workers := {[ 1; 2; 4 ]};
                next_worker := 5; listeners := 1; ticks := 0 |};
     agents := [];
     trace := [] |}.

(** The queue item of cluster 0, and a [connect] message as the worker's
    listener expects it. *)
Definition item0 : object :=
  {[ "clusterID" := VNumber 0; "firstShardID" := VNumber 0;
     "lastShardID" := VNumber 3; "shardCount" := VNumber 4 ]}.

Definition connect_message (shardCount : Z) : object :=
  {[ "name" := VString "connect"; "clusterID" := VNumber 0;
     "firstShardID" := VNumber 0; "lastShardID" := VNumber 3;
     "shardCount" := VNumber shardCount ]}.

(** A computation that leaves the public [clusters] map as it found it. *)
Definition keeps_clusters {A} (c : M A) : Prop :=
  ∀ w, ClusterManager.clusters (manager (snd (c w))) = ClusterManager.clusters (manager w).

(** ** Predicates used by the further properties *)

(** The ids of the configs in [#clusters] are pairwise different. *)
Definition unique_ids (w : World) : Prop :=
  NoDup (ClusterConfig.id <$> ClusterManager.clusters_ (manager w)).

(** A computation that keeps a property of the state, however it ends. *)
Definition preserves {A} (P : World → Prop) (c : M A) : Prop :=
  ∀ w, P w → P (snd (c w)).

(** The state with another list of configs. *)
Definition with_configs (l : list ClusterConfig.t) (w : World) : World :=
  set_manager (ClusterManager.set_clusters_ (λ _, l)) w.

(** The message of [fetchInfo]. *)
Definition info_message (eventName : string) (v : value) : object :=
  {[ "eventName" := VString eventName; "value" := v ]}.

(** The message of [updateStats]. *)
Definition stats_message : object := {[ "eventName" := VString "statsUpdate" ]}.

(** The log entry of [handleRejection]. *)
Definition rejection_entry (reason : exn) : effect :=
  LoggerError [[VString "Unhandled rejection at Promise:"];
               [VString "[object Promise]"];
               [VString "reason:"];
               [VString (exn_message reason)]].

(** What only the constructor writes: the fields of the manager other than
    the config list, the strategies, [workers] and [clusters], with the
    options taken without the [clientOptions] object, which
    [Cluster.connect] writes into. *)
Definition constructed (w : World) :
    string * Options.t * Webhooks * ClusterManagerStats * gmap string Z :=
  (ClusterManager.token (manager w),
   Options.others (ClusterManager.options (manager w)),
   ClusterManager.webhooks (manager w), ClusterManager.stats (manager w),
   ClusterManager.callbacks (manager w)).

(** The webhook of a type in the options given to the constructor. *)
Definition configured_webhook (options : Options.partial) (type : WebhookType)
    : option WebhookOptions :=
  wh ← Options.p_webhooks options;
  match type with
  | cluster => webhooks_cluster wh
  | shard => webhooks_shard wh
  end.

(** What [launch]'s tick writes before it runs the cluster strategy, given
    what was read of the logo file (the empty string when there is no
    logo). *)
Definition tick_preamble (contents : string) (strategy : string) : list effect :=
  [ConsoleClear]
  ++ (if String.eqb contents "" then []
      else [ConsoleLog [[VString contents; VString newline]]])
  ++ [LoggerInfo [[VString "Initialising clusters..."]];
      LoggerInfo [[VString "Configuring using the '"; VString strategy;
                   VString "' strategy"]]].

(** Constructor options that set [guildsPerShard] only. *)
Definition options_guildsPerShard (g : Z) : Options.partial :=
  {| Options.p_clientOptions := None; Options.p_startUpLogoPath := None;
     Options.p_launchModulePath := None; Options.p_debugMode := None;
     Options.p_useSyncedRequestHandler := None; Options.p_showStartupStats := None;
     Options.p_shardCountOverride := None; Options.p_firstShardId := None;
     Options.p_lastShardId := None; Options.p_guildsPerShard := Some g;
     Options.p_clusterIdOffset := None; Options.p_clusterTimeout := None;
     Options.p_ipcTimeout := None; Options.p_statsUpdateInterval := None;
     Options.p_webhooks := None |}.

(** Constructor options that set [webhooks] only. *)
Definition options_webhooks (wh : Webhooks) : Options.partial :=
  {| Options.p_clientOptions := None; Options.p_startUpLogoPath := None;
     Options.p_launchModulePath := None; Options.p_debugMode := None;
     Options.p_useSyncedRequestHandler := None; Options.p_showStartupStats := None;
     Options.p_shardCountOverride := None; Options.p_firstShardId := None;
     Options.p_lastShardId := None; Options.p_guildsPerShard := None;
     Options.p_clusterIdOffset := None; Options.p_clusterTimeout := None;
     Options.p_ipcTimeout := None; Options.p_statsUpdateInterval := None;
     Options.p_webhooks := Some wh |}.

(** Constructor options that set [startUpLogoPath] only. *)
Definition options_logo (path : string) : Options.partial :=
  {| Options.p_clientOptions := None; Options.p_startUpLogoPath := Some path;
     Options.p_launchModulePath := None; Options.p_debugMode := None;
     Options.p_useSyncedRequestHandler := None; Options.p_showStartupStats := None;
     Options.p_shardCountOverride := None; Options.p_firstShardId := None;
     Options.p_lastShardId := None; Options.p_guildsPerShard := None;
     Options.p_clusterIdOffset := None; Options.p_clusterTimeout := None;
     Options.p_ipcTimeout := None; Options.p_statsUpdateInterval := None;
     Options.p_webhooks := None |}.

(** A cluster strategy that configures nothing. *)
Definition no_clusters : IClusterStrategy.t :=
  {| IClusterStrategy.name := "none"; IClusterStrategy.run := λ _, Return |}.

(** The default: no [startUpLogoPath], so the joined path is the working
    directory and reading it fails. *)
Definition no_logo : LogoFile := {| logo_path := "/srv"; logo_contents := None |}.

(** A logo file that is there. *)
Definition some_logo : LogoFile :=
  {| logo_path := "/srv/logo.txt"; logo_contents := Some "SHARDER" |}.

(** Every key of [workers] is a worker id that Node has handed out: ids
    start at 1 and the next one to hand out is larger than all of them. *)
Definition registered_forked (w : World) : Prop :=
  1 ≤ next_worker (node w)
  ∧ ∀ k, is_Some (ClusterManager.workers (manager w) !! k) →
         1 ≤ k < next_worker (node w).

(* ------------------------------------------------------------------ *)
(** * Properties *)

(** ** addCluster *)

Lemma getCluster_found (w : World) (i : Z) (c : ClusterConfig.t) :
  c ∈ ClusterManager.clusters_ (manager w) →
  by_id_or_worker i c →
  ∃ r, getCluster i w = (Ok (Some r), w).
Proof.
  intros Hin Hp. unfold getCluster, gets.
  destruct (list_find_elem_of (by_id_or_worker i) _ c Hin Hp) as [r Hr].
  exists r. by rewrite Hr.
Qed.

(** C3. Adding a config whose id is the id of a config already in the list
    throws "Clusters cannot have the same ID." and leaves the whole state,
    so the config list too, exactly as it was. *)
Theorem addCluster_duplicate (w : World) (config : ClusterConfig.t) :
  (∃ c, c ∈ ClusterManager.clusters_ (manager w)
        ∧ ClusterConfig.id c = ClusterConfig.id config) →
  addCluster config w = (Throw (Error "Clusters cannot have the same ID."), w).
Proof.
  intros (c & Hin & Hid).
  destruct (getCluster_found w (ClusterConfig.id config) c Hin) as [r Hr].
  { by left. }
  unfold addCluster, bind. by rewrite Hr.
Qed.

(** ** fetchGuildCount, fetchShardCount *)

(** For a positive divisor [ceil_div] is the ceiling of the exact quotient:
    the least integer [c] with [a <= c * b]. *)
Lemma ceil_div_ceiling (a b : Z) :
  0 < b →
  ∃ c, ceil_div a b = Finite c ∧ (c - 1) * b < a ≤ c * b.
Proof.
  intros Hb. exists (- (- a / b)). split.
  - unfold ceil_div. destruct (Z.eqb_spec b 0); [lia | done].
  - pose proof (Z.div_mod (- a) b ltac:(lia)) as Hdm.
    pose proof (Z.mod_pos_bound (- a) b Hb) as Hm.
    nia.
Qed.

Lemma fetchGuildCount_ok (w : World) (sessionData : SessionData) :
  shards sessionData ≠ 0 →
  fetchGuildCount (Some sessionData) w =
    (Ok (shards sessionData * 1000),
     log (LoggerInfo [[VString "Discord recommended ";
                       VNumber (shards sessionData); VString " shards"]]) w).
Proof.
  intros Hs. unfold fetchGuildCount.
  destruct (Z.eqb_spec (shards sessionData) 0); [done | reflexivity].
Qed.

Lemma fetchGuildCount_fails (w : World) (gateway : option SessionData) :
  gateway = None ∨ (∃ sessionData, gateway = Some sessionData ∧ shards sessionData = 0) →
  fetchGuildCount gateway w = (Throw (Error "Failed to fetch guild count."), w).
Proof.
  intros [-> | (sd & -> & Hs)]; [reflexivity |].
  unfold fetchGuildCount. by rewrite Hs.
Qed.

(** C5. When the gateway fetch succeeds and reports at least one shard,
    [fetchShardCount] resolves to
    [max(shardCountOverride, ceil(shards * 1000 / guildsPerShard))], where for
    a positive [guildsPerShard] the ceiling is the least integer [c] with
    [shards * 1000 <= c * guildsPerShard]; when the fetch fails or reports
    no shards, [fetchGuildCount] and [fetchShardCount] both reject with
    "Failed to fetch guild count."; and 120 recommended shards (120000
    guilds) with [guildsPerShard] 1500 and override 0 give 80. *)
Theorem fetchShardCount_spec (w : World) :
  let guildsPerShard := Options.guildsPerShard (ClusterManager.options (manager w)) in
  let shardCountOverride := Options.shardCountOverride (ClusterManager.options (manager w)) in
  (∀ sessionData,
     1 ≤ shards sessionData →
     fst (fetchShardCount (Some sessionData) w) =
       Ok (JS.max shardCountOverride
                  (ceil_div (shards sessionData * 1000) guildsPerShard))
     ∧ (0 < guildsPerShard →
        ∃ c, (c - 1) * guildsPerShard < shards sessionData * 1000 ≤ c * guildsPerShard
             ∧ fst (fetchShardCount (Some sessionData) w) =
                 Ok (Finite (Z.max shardCountOverride c))))
  ∧ (∀ gateway,
       gateway = None ∨ (∃ sessionData, gateway = Some sessionData ∧ shards sessionData = 0) →
       fetchGuildCount gateway w = (Throw (Error "Failed to fetch guild count."), w)
       ∧ fetchShardCount gateway w = (Throw (Error "Failed to fetch guild count."), w))
  ∧ (∀ sessionData,
       shards sessionData * 1000 = 120000 → guildsPerShard = 1500 →
       shardCountOverride = 0 →
       fst (fetchShardCount (Some sessionData) w) = Ok (Finite 80)).
Proof.
  intros g o. subst g o.
  assert (Hok : ∀ sd, shards sd ≠ 0 →
            fst (fetchShardCount (Some sd) w) =
            Ok (JS.max (Options.shardCountOverride (ClusterManager.options (manager w)))
                  (ceil_div (shards sd * 1000)
                     (Options.guildsPerShard (ClusterManager.options (manager w)))))).
  { intros sd Hsd. unfold fetchShardCount, bind.
    rewrite fetchGuildCount_ok by done. reflexivity. }
  split; [| split].
  - intros sd Hsd. split; [apply Hok; lia |].
    intros Hg.
    destruct (ceil_div_ceiling (shards sd * 1000) _ Hg) as (c & Hc & Hbounds).
    exists c. split; [done |].
    rewrite Hok by lia. by rewrite Hc.
  - intros gateway Hfail. split; [by apply fetchGuildCount_fails |].
    unfold fetchShardCount, bind. by rewrite fetchGuildCount_fails.
  - intros sd Hguilds Hg Ho.
    rewrite Hok by lia. rewrite Hguilds, Hg, Ho. reflexivity.
Qed.

(** ** The worker's message listener *)

Lemma connect_unfold (this : Cluster.t) (w : World) :
  let options : object :=
    {[ "autoreconnect" := VBool true;
       "firstShardID" := Cluster.firstShardID this;
       "lastShardID" := Cluster.lastShardID this;
       "maxShards" := Cluster.shardCount this ]} in
  let client :=
    {| client_token := ClusterManager.token (manager w);
       client_options := options ∪ ClusterManager.clientOptions (manager w) |} in
  connect this w =
    (Ok {| Cluster.client := Some client; Cluster.id := Cluster.id this;
           Cluster.shardCount := Cluster.shardCount this;
           Cluster.maxShards := Cluster.maxShards this;
           Cluster.firstShardID := Cluster.firstShardID this;
           Cluster.lastShardID := Cluster.lastShardID this |},
     logs (connect_effects this client)
          (set_manager (ClusterManager.set_clientOptions (λ o, options ∪ o)) w)).
Proof. destruct w as [m n a t]. cbv [connect logs connect_effects bind gets emit modify log ret set_manager manager node agents trace]. simpl. rewrite <- !app_assoc. reflexivity. Qed.

Lemma on_message_connect (w : World) (this : Cluster.t) (message : object) :
  get message "name" = VString "connect" →
  on_message this message w =
    if gt (get message "shardCount") 0
    then connect (assigned this message) w
    else (Ok (assigned this message), w).
Proof.
  intros Hname. unfold on_message. rewrite Hname. simpl.
  fold (assigned this message).
  by destruct (gt (get message "shardCount") 0).
Qed.

Lemma clients_app (t1 t2 : list effect) : clients (t1 ++ t2) = clients t1 ++ clients t2.
Proof. apply omap_app. Qed.

Lemma connects_app (t1 t2 : list effect) : connects (t1 ++ t2) = (connects t1 + connects t2)%nat.
Proof. unfold connects. by rewrite omap_app, length_app. Qed.

(** C8. A [connect] message with a positive shard count makes the Cluster
    create exactly one gateway client and then call its [connect()]: the
    client's options hold the message's [firstShardID] and [lastShardID],
    its shard count as [maxShards] and [autoreconnect: true], whatever the
    manager's [clientOptions] said under these four keys, and every other
    option as [clientOptions] had it. *)
Theorem connect_message_connects (w : World) (this : Cluster.t) (message : object) (n : Z) :
  get message "name" = VString "connect" →
  get message "shardCount" = VNumber n →
  0 < n →
  ∃ client this' w',
    on_message this message w = (Ok this', w')
    ∧ trace w' = trace w ++ connect_effects (assigned this message) client
    ∧ clients (trace w') = clients (trace w) ++ [client]
    ∧ connects (trace w') = S (connects (trace w))
    ∧ Cluster.client this' = Some client
    ∧ client_options client !! "firstShardID" = Some (get message "firstShardID")
    ∧ client_options client !! "lastShardID" = Some (get message "lastShardID")
    ∧ client_options client !! "maxShards" = Some (VNumber n)
    ∧ client_options client !! "autoreconnect" = Some (VBool true)
    ∧ ∀ k, k ∉ ["autoreconnect"; "firstShardID"; "lastShardID"; "maxShards"] →
           client_options client !! k = ClusterManager.clientOptions (manager w) !! k.
Proof.
  intros Hname Hcount Hpos.
  rewrite on_message_connect by done.
  rewrite Hcount. unfold gt. simpl.
  destruct (Z.ltb_spec 0 n); [| lia].
  rewrite connect_unfold. cbv zeta.
  eexists _, _, _. split; [reflexivity |].
  split; [reflexivity |].
  split. { simpl trace. rewrite clients_app. reflexivity. }
  split. { simpl trace. rewrite connects_app. unfold connects, connect_effects. simpl. lia. }
  split; [reflexivity |].
  simpl client_options. simpl Cluster.firstShardID. simpl Cluster.lastShardID.
  simpl Cluster.shardCount. rewrite Hcount.
  repeat split.
  - apply lookup_union_Some_l. by simplify_map_eq.
  - apply lookup_union_Some_l. by simplify_map_eq.
  - apply lookup_union_Some_l. by simplify_map_eq.
  - apply lookup_union_Some_l. by simplify_map_eq.
  - intros k Hk. apply lookup_union_r.
    rewrite !not_elem_of_cons in Hk. destruct Hk as (? & ? & ? & ? & _).
    by simplify_map_eq.
Qed.

(** C10. A [connect] message whose shard count is zero or negative is
    recorded (cluster id, first and last shard, shard count) and nothing
    else happens: no client is created, [connect()] is not called, the
    Cluster's [client] field stays as it was (unset on a new Cluster), and
    the rest of the process is untouched. *)
Theorem connect_message_without_shards (w : World) (this : Cluster.t) (message : object) (n : Z) :
  get message "name" = VString "connect" →
  get message "shardCount" = VNumber n →
  n ≤ 0 →
  ∃ this',
    on_message this message w = (Ok this', w)
    ∧ Cluster.id this' = get message "clusterID"
    ∧ Cluster.firstShardID this' = get message "firstShardID"
    ∧ Cluster.lastShardID this' = get message "lastShardID"
    ∧ Cluster.shardCount this' = VNumber n
    ∧ Cluster.client this' = Cluster.client this
    ∧ (Cluster.client this = None → Cluster.client this' = None).
Proof.
  intros Hname Hcount Hn.
  rewrite on_message_connect by done.
  rewrite Hcount. unfold gt. simpl.
  destruct (Z.ltb_spec 0 n); [lia |].
  exists (assigned this message). simpl. rewrite Hcount. by repeat split.
Qed.

(** ** broadcast, fetchInfo *)

Section Consecutive.
Variable m : gmap Z RawCluster.t.

Lemma consecutive_lookup (fuel : nat) (s : Z) (i : nat) (c : RawCluster.t) :
  consecutive fuel m s !! i = Some c → m !! (s + Z.of_nat i) = Some c.
Proof.
  revert s i. induction fuel as [| fuel IH]; intros s i; simpl; [done |].
  destruct (m !! s) as [c0 |] eqn:Hs; [| done].
  destruct i as [| i]; simpl.
  - intros [= <-]. by rewrite Z.add_0_r.
  - intros Hi. apply IH in Hi. by replace (s + Z.of_nat (S i)) with (s + 1 + Z.of_nat i) by lia.
Qed.

Lemma consecutive_gap (fuel : nat) (s : Z) :
  (length (consecutive fuel m s) < fuel)%nat →
  m !! (s + Z.of_nat (length (consecutive fuel m s))) = None.
Proof.
  revert s. induction fuel as [| fuel IH]; intros s; simpl; [lia |].
  destruct (m !! s) as [c0 |] eqn:Hs; simpl.
  - intros Hlt. replace (s + Z.of_nat (S (length (consecutive fuel m (s + 1)))))
      with (s + 1 + Z.of_nat (length (consecutive fuel m (s + 1)))) by lia.
    apply IH. lia.
  - intros _. by rewrite Z.add_0_r.
Qed.
End Consecutive.

Lemma consecutive_delete (fuel : nat) (m : gmap Z RawCluster.t) (k s : Z) :
  k < s → consecutive fuel (delete k m) s = consecutive fuel m s.
Proof.
  revert s. induction fuel as [| fuel IH]; intros s Hk; simpl; [done |].
  rewrite lookup_delete_ne by lia.
  destruct (m !! s); [| done]. f_equal. apply IH. lia.
Qed.

(** A run of consecutive registered ids has at most as many members as the
    map has entries. *)
Lemma consecutive_length (fuel : nat) (m : gmap Z RawCluster.t) (s : Z) :
  (length (consecutive fuel m s) ≤ size m)%nat.
Proof.
  revert m s. induction fuel as [| fuel IH]; intros m s; simpl; [lia |].
  destruct (m !! s) as [c |] eqn:Hs; simpl; [| lia].
  rewrite <- (consecutive_delete fuel m s (s + 1)) by lia.
  specialize (IH (delete s m) (s + 1)).
  rewrite map_size_delete_Some in IH by eauto.
  assert (size m ≠ 0%nat) by (intros ->%map_size_empty_inv; by rewrite lookup_empty in Hs).
  lia.
Qed.

Lemma logs_nil (w : World) : logs [] w = w.
Proof. destruct w. unfold logs. simpl. by rewrite app_nil_r. Qed.

Lemma logs_cons (e : effect) (es : list effect) (w : World) :
  logs (e :: es) w = logs es (log e w).
Proof. unfold logs, log. simpl. by rewrite <- app_assoc. Qed.

Lemma cluster_worker_live (w : World) (workerID : Z) :
  workerID ∈ cluster_workers (node w) → cluster_worker workerID w = (Ok (Some workerID), w).
Proof. intros H. unfold cluster_worker, gets. by rewrite decide_True. Qed.

Lemma cluster_worker_dead (w : World) (workerID : Z) :
  workerID ∉ cluster_workers (node w) → cluster_worker workerID w = (Ok None, w).
Proof. intros H. unfold cluster_worker, gets. by rewrite decide_False. Qed.

Lemma broadcast_rec_run (fuel : nat) (w : World) (s : Z) (message : object) :
  workers_live w →
  (length (consecutive fuel (ClusterManager.clusters (manager w)) s) < fuel)%nat →
  broadcast_rec fuel s message w =
    (Ok tt, logs (map (λ c, Send (RawCluster.workerID c) message)
                      (consecutive fuel (ClusterManager.clusters (manager w)) s)) w).
Proof.
  revert w s. induction fuel as [| fuel IH]; intros w s Hlive; simpl; [lia |].
  unfold bind at 1. unfold gets at 1.
  destruct (ClusterManager.clusters (manager w) !! s) as [c |] eqn:Hs; simpl.
  - intros Hlt. unfold bind at 1.
    rewrite cluster_worker_live by eauto.
    unfold bind at 1. unfold send, emit, modify.
    rewrite logs_cons. apply (IH (log _ w)); [done | simpl; lia].
  - intros _. by rewrite logs_nil.
Qed.

(** X26. Provided the registered clusters' workers are live (as the code's
    non-null assertion takes them to be), [broadcast(s, m)] returns after
    sending [m], in ascending id order, to the worker of each cluster of the
    run of consecutive registered ids [s], [s+1], ..., and to nobody else:
    the run ends at the first id with no registered cluster, and nothing
    registered past that gap is sent anything. *)
Theorem broadcast_consecutive_run (w : World) (s : Z) (message : object) :
  workers_live w →
  ∃ run : list RawCluster.t,
    (∀ (i : nat) c, run !! i = Some c →
       ClusterManager.clusters (manager w) !! (s + Z.of_nat i) = Some c)
    ∧ ClusterManager.clusters (manager w) !! (s + Z.of_nat (length run)) = None
    ∧ broadcast s message w =
        (Ok tt, logs (map (λ c, Send (RawCluster.workerID c) message) run) w).
Proof.
  intros Hlive.
  set (m := ClusterManager.clusters (manager w)).
  pose proof (consecutive_length (S (size m)) m s) as Hlen.
  exists (consecutive (S (size m)) m s). split; [| split].
  - intros i c. apply consecutive_lookup.
  - apply consecutive_gap. lia.
  - unfold broadcast, bind, gets. apply broadcast_rec_run; [done | fold m; lia].
Qed.

Lemma broadcast_dead_worker (w : World) (s : Z) (message : object) (c : RawCluster.t) :
  ClusterManager.clusters (manager w) !! s = Some c →
  RawCluster.workerID c ∉ cluster_workers (node w) →
  broadcast s message w =
    (Throw (TypeError "Cannot read property 'send' of undefined"), w).
Proof.
  intros Hs Hdead. unfold broadcast, bind at 1, gets at 1. simpl.
  unfold bind at 1, gets at 1. rewrite Hs. unfold bind at 1.
  by rewrite cluster_worker_dead.
Qed.

Lemma consecutive_full (m : gmap Z RawCluster.t) (n : nat) (s : Z) :
  (∀ i : nat, (i < n)%nat → is_Some (m !! (s + Z.of_nat i))) →
  length (consecutive n m s) = n.
Proof.
  revert s. induction n as [| n IH]; intros s Hall; simpl; [done |].
  destruct (Hall 0%nat ltac:(lia)) as [c Hc]. rewrite Z.add_0_r in Hc. rewrite Hc.
  simpl. f_equal. apply IH. intros i Hi.
  replace (s + 1 + Z.of_nat i) with (s + Z.of_nat (S i)) by lia. apply Hall. lia.
Qed.

Lemma broadcast_rec_prefix (fuel : nat) (w : World) (s : Z) (message : object) :
  ∃ (run : list RawCluster.t) (o : outcome unit),
    broadcast_rec fuel s message w
    = (o, logs (map (λ c, Send (RawCluster.workerID c) message) run) w)
    ∧ (∀ (i : nat) c, run !! i = Some c →
         ClusterManager.clusters (manager w) !! (s + Z.of_nat i) = Some c
         ∧ RawCluster.workerID c ∈ cluster_workers (node w))
    ∧ (length run ≤ fuel)%nat
    ∧ (if decide (length run = fuel)
       then o = Throw (RangeError "Maximum call stack size exceeded")
       else match ClusterManager.clusters (manager w) !! (s + Z.of_nat (length run)) with
            | None => o = Ok tt
            | Some dead =>
                (RawCluster.workerID dead ∉ cluster_workers (node w))
                ∧ o = Throw (TypeError "Cannot read property 'send' of undefined")
            end).
Proof.
  revert w s. induction fuel as [| fuel IH]; intros w s.
  { exists [], (Throw (RangeError "Maximum call stack size exceeded")).
    simpl. rewrite logs_nil.
    split; [done |]. split; [by intros i c' Hi |]. split; [lia | done]. }
  simpl. unfold bind at 1, gets at 1.
  destruct (ClusterManager.clusters (manager w) !! s) as [c |] eqn:Hs.
  - unfold bind at 1.
    destruct (decide (RawCluster.workerID c ∈ cluster_workers (node w))) as [Hlive | Hdead].
    + rewrite cluster_worker_live by done.
      unfold bind at 1, send, emit, modify.
      destruct (IH (log (Send (RawCluster.workerID c) message) w) (s + 1))
        as (run & o & Heq & Hrun & Hlen & Ho).
      exists (c :: run), o. split; [| split; [| split]].
      * rewrite Heq. simpl map. by rewrite logs_cons.
      * intros [| i] c' Hi; simpl in Hi.
        -- injection Hi as <-. by rewrite Z.add_0_r.
        -- replace (s + Z.of_nat (S i)) with (s + 1 + Z.of_nat i) by lia.
           by apply Hrun.
      * simpl. lia.
      * simpl length.
        replace (s + Z.of_nat (S (length run))) with (s + 1 + Z.of_nat (length run)) by lia.
        destruct (decide (length run = fuel)) as [-> | Hne].
        -- by rewrite decide_True.
        -- rewrite decide_False by lia. exact Ho.
    + rewrite cluster_worker_dead by done.
      exists [], (Throw (TypeError "Cannot read property 'send' of undefined")).
      simpl length. rewrite decide_False by done.
      simpl. rewrite logs_nil, Z.add_0_r, Hs.
      split; [done |]. split; [by intros i c' Hi |]. split; [lia | done].
  - exists [], (Ok tt). simpl length. rewrite decide_False by done.
    simpl. rewrite logs_nil, Z.add_0_r, Hs.
    split; [done |]. split; [by intros i c' Hi |]. split; [lia | done].
Qed.

(** C4, as the code has it. [broadcast(s, m)] sends [m], in ascending id
    order, to the workers of the clusters registered under [s], [s+1], ...
    for as long as each has a live worker, and to nobody else. If the next
    id is not registered it returns: that is the gap of the claim. If the
    next id is registered and its worker is gone, it throws a TypeError on
    [worker.send] there, inside the run, and the clusters of the run after
    that one are not sent the message. *)
Theorem broadcast_live_prefix (w : World) (s : Z) (message : object) :
  ∃ run : list RawCluster.t,
    (∀ (i : nat) c, run !! i = Some c →
       ClusterManager.clusters (manager w) !! (s + Z.of_nat i) = Some c
       ∧ RawCluster.workerID c ∈ cluster_workers (node w))
    ∧ snd (broadcast s message w)
      = logs (map (λ c, Send (RawCluster.workerID c) message) run) w
    ∧ match ClusterManager.clusters (manager w) !! (s + Z.of_nat (length run)) with
      | None => fst (broadcast s message w) = Ok tt
      | Some dead =>
          (RawCluster.workerID dead ∉ cluster_workers (node w))
          ∧ fst (broadcast s message w)
            = Throw (TypeError "Cannot read property 'send' of undefined")
      end.
Proof.
  set (m := ClusterManager.clusters (manager w)).
  destruct (broadcast_rec_prefix (S (size m)) w s message)
    as (run & o & Heq & Hrun & Hlen & Ho).
  exists run. split; [done |].
  unfold broadcast, bind, gets. fold m. rewrite Heq. split; [done |].
  destruct (decide (length run = S (size m))) as [Hfull | _]; [| exact Ho].
  exfalso.
  pose proof (consecutive_length (length run) m s) as Hbound.
  rewrite consecutive_full in Hbound; [lia |].
  intros i Hi. destruct (lookup_lt_is_Some_2 run i Hi) as [c Hc].
  exists c. by apply Hrun.
Qed.

(** The failing input of C4: clusters 0, 1 and 3 are registered on workers
    1, 2 and 4, and worker 2 has exited. The run from 0 is clusters 0 and 1;
    worker 1 is sent the message, then [broadcast] throws at cluster 1. *)
Example broadcast_after_exit :
  let w := run [WorkerExit 2 1] populated in
  ClusterManager.clusters (manager w) !! 1 = Some (raw 2 4 7)
  ∧ ClusterManager.clusters (manager w) !! 2 = None
  ∧ fst (broadcast 0 item0 w) = Throw (TypeError "Cannot read property 'send' of undefined")
  ∧ sends (trace (snd (broadcast 0 item0 w))) = [(1, item0)].
Proof. by repeat split. Qed.

(** ** The public [clusters] map is never written *)

Section Keeps.
Context {A B : Type}.

Lemma keeps_ret (a : A) : keeps_clusters (ret a).
Proof. done. Qed.

Lemma keeps_throw (e : exn) : keeps_clusters (@throw A e).
Proof. done. Qed.

Lemma keeps_exit (code : Z) : keeps_clusters (@exit A code).
Proof. done. Qed.

Lemma keeps_gets (f : World → A) : keeps_clusters (gets f).
Proof. done. Qed.

Lemma keeps_bind (c : M A) (k : A → M B) :
  keeps_clusters c → (∀ a, keeps_clusters (k a)) → keeps_clusters (bind c k).
Proof.
  intros Hc Hk w. unfold bind. specialize (Hc w).
  destruct (c w) as [[a | e | code] w']; simpl in *; [| done | done].
  by rewrite Hk.
Qed.

Lemma keeps_catch (c : M A) (h : exn → M A) :
  keeps_clusters c → (∀ e, keeps_clusters (h e)) → keeps_clusters (catch c h).
Proof.
  intros Hc Hh w. unfold catch. specialize (Hc w).
  destruct (c w) as [[a | e | code] w']; simpl in *; [done | | done].
  by rewrite Hh.
Qed.
End Keeps.

Lemma keeps_modify (f : World → World) :
  (∀ w, ClusterManager.clusters (manager (f w)) = ClusterManager.clusters (manager w)) →
  keeps_clusters (modify f).
Proof. intros Hf w. apply Hf. Qed.

Lemma keeps_emit (e : effect) : keeps_clusters (emit e).
Proof. done. Qed.

Lemma keeps_dispatch (n : nat) (c : M unit) :
  keeps_clusters c → keeps_clusters (dispatch n c).
Proof.
  intros Hc. induction n as [| n IH]; simpl; [apply keeps_ret |].
  by apply keeps_bind.
Qed.

Create HintDb keeps.

#[local] Hint Resolve keeps_ret keeps_throw keeps_exit keeps_gets keeps_emit
  keeps_dispatch : keeps.

(** One step through a computation: a bind, a primitive, or a case
    distinction on what was read. *)
Ltac keeps_step :=
  lazymatch goal with
  | |- keeps_clusters (bind _ _) => apply keeps_bind; [| intros ?]
  | |- keeps_clusters (catch _ _) => apply keeps_catch; [| intros ?]
  | |- keeps_clusters (modify _) => apply keeps_modify; intros ?; reflexivity
  | |- keeps_clusters (match ?x with _ => _ end) => destruct x
  | |- keeps_clusters (let _ := _ in _) => cbv zeta
  | |- _ => solve [eauto with keeps]
  end.

Ltac keeps := repeat keeps_step.

Lemma keeps_getCluster (i : Z) : keeps_clusters (getCluster i).
Proof. unfold getCluster. keeps. Qed.

Lemma keeps_fork : keeps_clusters fork.
Proof. unfold fork. keeps. Qed.

Lemma keeps_cluster_worker (i : Z) : keeps_clusters (cluster_worker i).
Proof. unfold cluster_worker. keeps. Qed.

Lemma keeps_send (worker : option Z) (message : object) : keeps_clusters (send worker message).
Proof. unfold send. keeps. Qed.

#[local] Hint Resolve keeps_getCluster keeps_fork keeps_cluster_worker keeps_send : keeps.

Lemma keeps_startCluster (clusterId : Z) : keeps_clusters (startCluster clusterId).
Proof. unfold startCluster. keeps. Qed.

Lemma keeps_addCluster (config : ClusterConfig.t) : keeps_clusters (addCluster config).
Proof. unfold addCluster. keeps. Qed.

Lemma keeps_removeCluster (i : Z) : keeps_clusters (removeCluster i).
Proof. unfold removeCluster. keeps. Qed.

Lemma keeps_isMaster : keeps_clusters isMaster.
Proof. unfold isMaster. keeps. Qed.

Lemma keeps_fetchInfo (start : Z) (eventName : string) (v : value) :
  keeps_clusters (fetchInfo start eventName v).
Proof.
  assert (Hrec : ∀ fuel start, keeps_clusters (fetchInfo_rec fuel start eventName v)).
  { induction fuel as [| fuel IH]; intros s; simpl; unfold stack_overflow; keeps. }
  unfold fetchInfo. keeps.
Qed.

Lemma keeps_updateStats (clusters : list Z) (start : Z) :
  keeps_clusters (updateStats clusters start).
Proof.
  unfold updateStats. generalize (S (length clusters)). intros fuel. revert start.
  induction fuel as [| fuel IH]; intros start; simpl; unfold stack_overflow; keeps.
Qed.

Lemma keeps_broadcast (start : Z) (message : object) :
  keeps_clusters (broadcast start message).
Proof.
  assert (Hrec : ∀ fuel start, keeps_clusters (broadcast_rec fuel start message)).
  { induction fuel as [| fuel IH]; intros s; simpl; unfold stack_overflow; keeps. }
  unfold broadcast. keeps.
Qed.

Lemma keeps_sendTo (clusterID : Z) (message : object) :
  keeps_clusters (sendTo clusterID message).
Proof. unfold sendTo. keeps. Qed.

Lemma keeps_sendWebhook (type : WebhookType) (embed : object) :
  keeps_clusters (sendWebhook type embed).
Proof. unfold sendWebhook. keeps. Qed.

Lemma keeps_fetchGuildCount (gateway : option SessionData) :
  keeps_clusters (fetchGuildCount gateway).
Proof. unfold fetchGuildCount. keeps. Qed.

#[local] Hint Resolve keeps_startCluster keeps_addCluster keeps_removeCluster
  keeps_isMaster keeps_fetchInfo keeps_updateStats keeps_broadcast keeps_sendTo
  keeps_sendWebhook keeps_fetchGuildCount : keeps.

Lemma keeps_fetchShardCount (gateway : option SessionData) :
  keeps_clusters (fetchShardCount gateway).
Proof. unfold fetchShardCount. keeps. Qed.

#[local] Hint Resolve keeps_fetchShardCount : keeps.

Lemma keeps_perform (c : call) : keeps_clusters (perform c).
Proof. destruct c; simpl; keeps. Qed.

Lemma keeps_run_script (s : script) : keeps_clusters (run_script s).
Proof.
  induction s as [| e | c k IH]; simpl; [keeps | keeps |].
  intros w. pose proof (keeps_perform c w) as Hc.
  destruct (perform c w) as [[a | e | code] w']; simpl in *;
    [by rewrite IH | by rewrite IH | done].
Qed.

#[local] Hint Resolve keeps_perform keeps_run_script : keeps.

Lemma keeps_connect (this : Cluster.t) : keeps_clusters (connect this).
Proof. unfold connect. keeps. Qed.

#[local] Hint Resolve keeps_connect : keeps.

Lemma keeps_on_message (this : Cluster.t) (message : object) :
  keeps_clusters (on_message this message).
Proof.
  unfold on_message.
  destruct (negb _); [keeps |].
  destruct (strict_eq _ _); [| keeps].
  cbv zeta. destruct (gt _ _); keeps.
Qed.

#[local] Hint Resolve keeps_on_message : keeps.

Lemma keeps_process_message (message : object) :
  keeps_clusters (process_message message).
Proof.
  assert (Hrec : ∀ n i, keeps_clusters (deliver n i message)).
  { induction n as [| n IH]; intros i; simpl; keeps. }
  unfold process_message. keeps.
Qed.

Lemma keeps_spawn (this : Cluster.t) : keeps_clusters (spawn this).
Proof. unfold spawn. keeps. Qed.

Lemma keeps_getStartUpLogo (logo : LogoFile) : keeps_clusters (getStartUpLogo logo).
Proof.
  unfold getStartUpLogo. keeps.
Qed.

Lemma keeps_handleRejection (reason : exn) : keeps_clusters (handleRejection reason).
Proof. unfold handleRejection. keeps. Qed.

#[local] Hint Resolve keeps_process_message keeps_spawn keeps_getStartUpLogo
  keeps_handleRejection : keeps.

Lemma keeps_launch_tick (logo : LogoFile) : keeps_clusters (launch_tick logo).
Proof. unfold launch_tick, launch_body. keeps. Qed.

Lemma keeps_launch : keeps_clusters launch.
Proof. unfold launch. keeps. Qed.

Lemma keeps_on_execute (item : object) : keeps_clusters (on_execute item).
Proof. unfold on_execute. keeps. Qed.

Lemma keeps_on_exit (worker code : Z) : keeps_clusters (on_exit worker code).
Proof. unfold on_exit, restartCluster. keeps. Qed.

Lemma keeps_on_worker_message (worker : Z) (message : object) :
  keeps_clusters (on_worker_message worker message).
Proof. unfold on_worker_message. keeps. Qed.

#[local] Hint Resolve keeps_launch_tick keeps_launch keeps_on_execute keeps_on_exit
  keeps_on_worker_message : keeps.

Lemma keeps_step (o : op) : keeps_clusters (step o).
Proof.
  destruct o; simpl;
    unfold setClusterStrategy, setConnectStrategy, setReconnectStrategy; keeps.
Qed.

Lemma run_keeps_clusters (ops : list op) (w : World) :
  ClusterManager.clusters (manager (run ops w)) = ClusterManager.clusters (manager w).
Proof.
  revert w. induction ops as [| o ops IH]; intros w; simpl; [done |].
  pose proof (keeps_step o w) as Ho.
  destruct (step o w) as [[[] | e | code] w']; simpl in *; by rewrite ?IH.
Qed.

Lemma broadcast_unregistered (w : World) (s : Z) (message : object) :
  ClusterManager.clusters (manager w) !! s = None →
  broadcast s message w = (Ok tt, w).
Proof. intros Hs. unfold broadcast, bind, gets. simpl. unfold bind, gets. by rewrite Hs. Qed.

Lemma fetchInfo_unregistered (w : World) (s : Z) (eventName : string) (v : value) :
  ClusterManager.clusters (manager w) !! s = None →
  fetchInfo s eventName v w = (Ok tt, w).
Proof. intros Hs. unfold fetchInfo, bind, gets. simpl. unfold bind, gets. by rewrite Hs. Qed.

(** C9. No operation of the manager writes the public [clusters] map: each
    single operation, from any state, leaves it as it was ([startCluster]
    in particular, which writes [workers] and the config's [workerId]); so
    after any sequence of operations on a newly constructed manager the map
    is empty, and [broadcast] and [fetchInfo] from any starting id return at
    once with nothing sent and nothing changed. *)
Theorem clusters_never_populated (d : Defaults) (master : bool) (token : string)
    (options : Options.partial) (ops : list op) :
  let w := run ops (boot d master token options) in
  (∀ o w0, ClusterManager.clusters (manager (snd (step o w0))) =
           ClusterManager.clusters (manager w0))
  ∧ ClusterManager.clusters (manager w) = ∅
  ∧ (∀ s message, broadcast s message w = (Ok tt, w))
  ∧ (∀ s eventName v, fetchInfo s eventName v w = (Ok tt, w)).
Proof.
  intros w.
  assert (Hempty : ClusterManager.clusters (manager w) = ∅).
  { subst w. by rewrite run_keeps_clusters. }
  split; [apply keeps_step |]. split; [done |]. split.
  - intros s message. apply broadcast_unregistered. by rewrite Hempty.
  - intros s eventName v. apply fetchInfo_unregistered. by rewrite Hempty.
Qed.

(** ** The queue's [execute] listener *)

Lemma on_message_other_name (w : World) (this : Cluster.t) (message : object) :
  get message "name" ≠ VString "connect" →
  on_message this message w = (Ok this, w).
Proof.
  intros Hname. unfold on_message.
  destruct (negb _); [done |].
  replace (strict_eq (get message "name") (VString "connect")) with false; [done |].
  unfold strict_eq. destruct (get message "name"); try done;
    symmetry; by apply bool_decide_eq_false.
Qed.

(** C1, as the code has it. For an item whose cluster is registered with a
    live worker, the listener sends that worker the item with the property
    [eventName: "connect"] added. The [name] property is not touched: the
    message has the [name] the item had. The worker's listener looks at
    [name] only, so unless the queue item itself came with
    [name: "connect"], it returns without recording anything and without
    connecting. *)
Theorem execute_sends_eventName (w : World) (item : object) (c : RawCluster.t) :
  clusters_get (ClusterManager.clusters (manager w)) (get item "clusterID") = Some c →
  RawCluster.workerID c ∈ cluster_workers (node w) →
  let message := <[ "eventName" := VString "connect" ]> item in
  on_execute item w = (Ok tt, log (Send (RawCluster.workerID c) message) w)
  ∧ get message "eventName" = VString "connect"
  ∧ get message "name" = get item "name"
  ∧ (get item "name" ≠ VString "connect" →
     ∀ this w', on_message this message w' = (Ok this, w')).
Proof.
  intros Hc Hlive message.
  assert (Hname : get message "name" = get item "name").
  { unfold get, message. by rewrite lookup_insert_ne. }
  split; [| split; [| split]].
  - unfold on_execute, bind at 1, gets at 1. rewrite Hc.
    unfold bind. by rewrite cluster_worker_live.
  - unfold get, message. by rewrite lookup_insert_eq.
  - done.
  - intros Hitem this w'. apply on_message_other_name. by rewrite Hname.
Qed.

(** ** The [exit] listener *)

Lemma dispatch_on_exit (n : nat) (w : World) (worker code : Z) :
  dispatch n (on_exit worker code) w = (Ok tt, w).
Proof. induction n as [| n IH]; simpl; [done |]. unfold bind. simpl. apply IH. Qed.

Lemma exit_restarts_nothing' (w : World) (worker code : Z) :
  ∃ w', step (WorkerExit worker code) w = (Ok tt, w')
        ∧ manager w' = manager w ∧ trace w' = trace w.
Proof.
  eexists. split.
  - simpl. unfold bind at 1, modify at 1. unfold bind at 1, gets at 1.
    apply dispatch_on_exit.
  - done.
Qed.

(** C2, as the code has it. The [exit] listener calls [restartCluster],
    whose body is empty: for every worker, every exit code, every configured
    reconnect strategy and however many listeners [launch] has registered,
    the event changes nothing but Node's own table of live workers. Nothing
    is forked, sent or logged, and the strategy is not consulted. *)
Theorem exit_restarts_nothing (w : World) (worker code : Z) :
  on_exit worker code w = (Ok tt, w)
  ∧ ∃ w', step (WorkerExit worker code) w = (Ok tt, w')
          ∧ manager w' = manager w
          ∧ trace w' = trace w
          ∧ agents w' = agents w
          ∧ cluster_workers (node w') = cluster_workers (node w) ∖ {[worker]}.
Proof.
  split; [done |].
  eexists. split.
  - simpl. unfold bind at 1, modify at 1. unfold bind at 1, gets at 1.
    apply dispatch_on_exit.
  - done.
Qed.

(** ** getCluster by worker id *)

(** C6, as the code has it. Configs 1 and 0 are added in this order and
    cluster 0 is started; Node gives its worker the id 1. Looked up by its
    cluster id 0 the spawned config is found, second in the list; looked up
    by its worker id 1 the other config is returned, whose cluster id is 1
    and which comes first. *)
Theorem getCluster_worker_id_collision (d : Defaults) (token : string)
    (options : Options.partial) :
  let w := run [Call (AddCluster config1); Call (AddCluster config0);
                Call (StartCluster 0)]
               (boot d true token options) in
  let spawned := ClusterConfig.set_workerId 1 config0 in
  ClusterManager.clusters_ (manager w) = [config1; spawned]
  ∧ fst (getCluster (ClusterConfig.id spawned) w) = Ok (Some (1%nat, spawned))
  ∧ fst (getCluster 1 w) = Ok (Some (0%nat, config1))
  ∧ ClusterConfig.workerId spawned = Some 1.
Proof. by repeat split. Qed.

(** The same defect on the sample launch: clusters 0 and 1 are started in
    order, the second [startCluster] finds config 0 under its worker id 1,
    so config 0 is given worker 2 and config 1 never gets a worker id. *)
Lemma ordered_start_overwrites (logo : LogoFile) :
  ClusterManager.clusters_ (manager (run [Launch; Tick logo] fresh)) =
    [ClusterConfig.set_workerId 2 config0; config1].
Proof.
  unfold fresh. simpl run.
  unfold launch_tick, launch_body, catch, bind at 1. simpl.
  unfold getStartUpLogo, bind at 1.
  destruct (logo_contents logo) as [contents |]; [| reflexivity].
  by destruct (String.eqb contents "").
Qed.

(** Where the two lookups do agree: no config before the spawned one has
    the spawned one's cluster id or worker id, as its own id or as its
    worker id. *)
Lemma getCluster_two_keys (w : World) (ref : nat) (c : ClusterConfig.t) (worker : Z) :
  ClusterManager.clusters_ (manager w) !! ref = Some c →
  ClusterConfig.workerId c = Some worker →
  (∀ (j : nat) c', (j < ref)%nat → ClusterManager.clusters_ (manager w) !! j = Some c' →
     ¬ by_id_or_worker (ClusterConfig.id c) c' ∧ ¬ by_id_or_worker worker c') →
  getCluster (ClusterConfig.id c) w = (Ok (Some (ref, c)), w)
  ∧ getCluster worker w = (Ok (Some (ref, c)), w).
Proof.
  intros Href Hworker Hbefore. unfold getCluster, gets.
  split; do 2 f_equal; apply list_find_Some; (split; [done |]).
  - split; [by left |]. intros j c' Hj Hlt. by apply (Hbefore j c').
  - split; [by right |]. intros j c' Hj Hlt. by apply (Hbefore j c').
Qed.

(** ** sendTo *)

(** C7, as the code has it. When the cluster id is not in the [clusters]
    map, [sendTo] throws a TypeError on reading [_cluster.workerID]. *)
Theorem sendTo_unregistered_throws (w : World) (clusterID : Z) (message : object) :
  ClusterManager.clusters (manager w) !! clusterID = None →
  sendTo clusterID message w =
    (Throw (TypeError "Cannot read property 'workerID' of undefined"), w).
Proof. intros Hc. unfold sendTo, bind, gets. by rewrite Hc. Qed.

(** The other half of C7 holds: a registered cluster whose worker is not
    live makes [sendTo] return with nothing sent and nothing changed. *)
Lemma sendTo_dead_worker_drops (w : World) (clusterID : Z) (message : object)
    (c : RawCluster.t) :
  cluster_isMaster (node w) = true →
  ClusterManager.clusters (manager w) !! clusterID = Some c →
  RawCluster.workerID c ∉ cluster_workers (node w) →
  sendTo clusterID message w = (Ok tt, w).
Proof.
  intros Hmaster Hc Hdead. unfold sendTo, bind at 1, gets at 1. rewrite Hc.
  unfold bind at 1, isMaster, gets at 1. rewrite Hmaster.
  unfold bind. by rewrite cluster_worker_dead.
Qed.

Lemma sendTo_live_worker_sends (w : World) (clusterID : Z) (message : object)
    (c : RawCluster.t) :
  cluster_isMaster (node w) = true →
  ClusterManager.clusters (manager w) !! clusterID = Some c →
  RawCluster.workerID c ∈ cluster_workers (node w) →
  sendTo clusterID message w = (Ok tt, log (Send (RawCluster.workerID c) message) w).
Proof.
  intros Hmaster Hc Hlive. unfold sendTo, bind at 1, gets at 1. rewrite Hc.
  unfold bind at 1, isMaster, gets at 1. rewrite Hmaster.
  unfold bind. by rewrite cluster_worker_live.
Qed.

Lemma sendTo_in_worker_throws (w : World) (clusterID : Z) (message : object)
    (c : RawCluster.t) :
  cluster_isMaster (node w) = false →
  ClusterManager.clusters (manager w) !! clusterID = Some c →
  sendTo clusterID message w = (Throw (no_workers_table (RawCluster.workerID c)), w).
Proof.
  intros Hworker Hc. unfold sendTo, bind at 1, gets at 1. rewrite Hc.
  unfold bind at 1, isMaster, gets at 1. by rewrite Hworker.
Qed.

(* ------------------------------------------------------------------ *)
(** * The properties at work on the sample states *)

Lemma workers_live_populated : workers_live populated.
Proof.
  change (map_Forall (λ _ c, RawCluster.workerID c ∈ cluster_workers (node populated))
                     (ClusterManager.clusters (manager populated))).
  apply (bool_decide_unpack _). by vm_compute.
Defined.

Lemma execute_sends_eventName_witness :
  on_execute item0 populated =
    (Ok tt, log (Send 1 (<[ "eventName" := VString "connect" ]> item0)) populated)
  ∧ get (<[ "eventName" := VString "connect" ]> item0) "name" = VUndefined
  ∧ ∀ this w', on_message this (<[ "eventName" := VString "connect" ]> item0) w'
               = (Ok this, w').
Proof.
  assert (Hc : clusters_get (ClusterManager.clusters (manager populated))
                 (get item0 "clusterID") = Some (raw 1 0 3)) by reflexivity.
  assert (Hlive : RawCluster.workerID (raw 1 0 3) ∈ cluster_workers (node populated))
    by (simpl; set_solver).
  destruct (execute_sends_eventName populated item0 (raw 1 0 3) Hc Hlive)
    as (Hsend & _ & Hname & Hignored).
  split; [exact Hsend |]. split; [exact Hname |].
  apply Hignored. discriminate.
Defined.

Lemma addCluster_duplicate_witness :
  let w := run [Call (AddCluster config0)] fresh in
  addCluster config0 w = (Throw (Error "Clusters cannot have the same ID."), w)
  ∧ ClusterManager.clusters_ (manager w) = [config0].
Proof.
  split; [| reflexivity].
  apply addCluster_duplicate. exists config0. split; [| reflexivity].
  simpl. apply list_elem_of_here.
Defined.

Lemma broadcast_consecutive_run_witness :
  workers_live populated
  ∧ ∃ run : list RawCluster.t,
      (∀ (i : nat) c, run !! i = Some c →
         ClusterManager.clusters (manager populated) !! (0 + Z.of_nat i) = Some c)
      ∧ ClusterManager.clusters (manager populated) !! (0 + Z.of_nat (length run)) = None
      ∧ broadcast 0 item0 populated =
          (Ok tt, logs (map (λ c, Send (RawCluster.workerID c) item0) run) populated).
Proof.
  split; [exact workers_live_populated |].
  exact (broadcast_consecutive_run populated 0 item0 workers_live_populated).
Defined.

(** On the sample state the run from 0 is clusters 0 and 1: workers 1 and 2
    get the message, worker 4 of cluster 3, past the gap at 2, does not. *)
Example broadcast_populated :
  sends (trace (snd (broadcast 0 item0 populated))) = [(1, item0); (2, item0)].
Proof. reflexivity. Qed.

Lemma fetchShardCount_spec_witness :
  fst (fetchShardCount (Some {| shards := 120 |}) fresh) = Ok (Finite 80)
  ∧ fetchShardCount None fresh = (Throw (Error "Failed to fetch guild count."), fresh)
  ∧ fetchShardCount (Some {| shards := 0 |}) fresh
    = (Throw (Error "Failed to fetch guild count."), fresh).
Proof.
  destruct (fetchShardCount_spec fresh) as (_ & Hfail & Hscenario).
  split; [apply Hscenario; reflexivity |].
  split.
  - apply Hfail. by left.
  - apply Hfail. right. by exists {| shards := 0 |}.
Defined.

Lemma sendTo_unregistered_throws_witness :
  sendTo 0 item0 fresh =
    (Throw (TypeError "Cannot read property 'workerID' of undefined"), fresh).
Proof. apply sendTo_unregistered_throws. reflexivity. Defined.

Lemma connect_message_connects_witness :
  ∃ client,
    clients (trace (snd (on_message Cluster.new (connect_message 4) worker_process)))
    = [client]
    ∧ client_options client !! "maxShards" = Some (VNumber 4)
    ∧ client_options client !! "firstShardID" = Some (VNumber 0)
    ∧ client_options client !! "lastShardID" = Some (VNumber 3)
    ∧ client_options client !! "autoreconnect" = Some (VBool true).
Proof.
  destruct (connect_message_connects worker_process Cluster.new (connect_message 4) 4
              eq_refl eq_refl ltac:(lia))
    as (client & this' & w' & Hrun & _ & Hclients & _ & _ & Hfirst & Hlast & Hmax & Hauto & _).
  exists client. rewrite Hrun. simpl snd. rewrite Hclients.
  split; [reflexivity |]. split; [exact Hmax |]. split; [exact Hfirst |].
  split; [exact Hlast | exact Hauto].
Defined.

Lemma connect_message_without_shards_witness :
  ∃ this', on_message Cluster.new (connect_message 0) worker_process
           = (Ok this', worker_process)
           ∧ Cluster.shardCount this' = VNumber 0
           ∧ Cluster.client this' = None.
Proof.
  destruct (connect_message_without_shards worker_process Cluster.new
              (connect_message 0) 0 eq_refl eq_refl ltac:(lia))
    as (this' & Hrun & _ & _ & _ & Hcount & _ & Hclient).
  exists this'. split; [exact Hrun |]. split; [exact Hcount |].
  apply Hclient. reflexivity.
Defined.

(** A worker process that launched receives the master's message through
    [process.on("message")]: with a [name] it connects, with the
    [eventName] the master really sends it does nothing. *)
Example worker_hears_name :
  connects (trace (run [ProcessMessage (connect_message 4)] worker_process)) = 1%nat.
Proof. reflexivity. Qed.

Example worker_ignores_eventName :
  run [ProcessMessage (<[ "eventName" := VString "connect" ]> item0)] worker_process
  = worker_process.
Proof. reflexivity. Qed.

(** The queue's [execute] on the sample state reaches worker 1, under
    [eventName]. *)
Example execute_populated :
  sends (trace (run [QueueExecute item0] populated))
  = [(1, <[ "eventName" := VString "connect" ]> item0)].
Proof. reflexivity. Qed.

(** After the sample launch has forked workers 1 and 2, worker 1 dies with
    code 1: no third fork, no message, no log line. *)
Example exit_after_launch (logo : LogoFile) :
  let w := run [Launch; Tick logo] fresh in
  trace (run [WorkerExit 1 1] w) = trace w
  ∧ manager (run [WorkerExit 1 1] w) = manager w.
Proof.
  intros w.
  destruct (exit_restarts_nothing' w 1 1) as (w' & Hstep & Hm & Ht).
  assert (run [WorkerExit 1 1] w = w') as ->; [| done].
  cbn [run]. by rewrite Hstep.
Qed.

(* ------------------------------------------------------------------ *)
(** * Further properties of the manager *)

(** ** startCluster, addCluster, removeCluster *)

Lemma getCluster_none (w : World) (i : Z) :
  (∀ c, c ∈ ClusterManager.clusters_ (manager w) → ¬ by_id_or_worker i c) →
  getCluster i w = (Ok None, w).
Proof.
  intros Hnone. unfold getCluster, gets. do 2 f_equal.
  apply list_find_None, Forall_forall. exact Hnone.
Qed.

(** X1. [startCluster] with an id that is neither the cluster id nor the
    worker id of any config returns at once: nothing is forked, nothing is
    registered, nothing is logged. *)
Theorem startCluster_unknown (w : World) (clusterId : Z) :
  (∀ c, c ∈ ClusterManager.clusters_ (manager w) → ¬ by_id_or_worker clusterId c) →
  startCluster clusterId w = (Ok tt, w).
Proof.
  intros Hnone. unfold startCluster, bind. by rewrite getCluster_none.
Qed.

Lemma startCluster_unknown_witness :
  startCluster 7 (run [Call (AddCluster config0); Call (AddCluster config1)] fresh)
  = (Ok tt, run [Call (AddCluster config0); Call (AddCluster config1)] fresh).
Proof.
  apply startCluster_unknown. intros c Hc.
  simpl in Hc. rewrite !elem_of_cons, elem_of_nil in Hc.
  destruct Hc as [-> | [-> | []]]; intros [H | H]; discriminate H.
Defined.

(** X2. In the master, [startCluster] on an id that [getCluster] resolves
    forks one worker with Node's next worker id, writes that id into the
    resolved config (the other configs and the order stay), maps it to the
    given id in [workers], and logs one line; the public [clusters] map is
    not written. *)
Theorem startCluster_spawns (w : World) (clusterId : Z) (ref : nat) (c : ClusterConfig.t) :
  cluster_isMaster (node w) = true →
  fst (getCluster clusterId w) = Ok (Some (ref, c)) →
  let worker := next_worker (node w) in
  ∃ w', startCluster clusterId w = (Ok tt, w')
        ∧ ClusterManager.clusters_ (manager w')
          = <[ref := ClusterConfig.set_workerId worker c]> (ClusterManager.clusters_ (manager w))
        ∧ ClusterManager.workers (manager w')
          = <[worker := clusterId]> (ClusterManager.workers (manager w))
        ∧ ClusterManager.clusters (manager w') = ClusterManager.clusters (manager w)
        ∧ cluster_workers (node w') = {[worker]} ∪ cluster_workers (node w)
        ∧ next_worker (node w') = worker + 1
        ∧ trace w' = trace w ++ [Fork worker;
                                 LoggerInfo [[VString "Started cluster "; VNumber clusterId]]].
Proof.
  intros Hmaster Hfound worker.
  unfold getCluster, gets in Hfound. simpl in Hfound.
  injection Hfound as Hfound.
  eexists. split.
  - unfold startCluster, bind at 1, getCluster, gets at 1. rewrite Hfound.
    unfold fork, bind, gets, modify, emit, ret. simpl. rewrite Hmaster.
    reflexivity.
  - simpl. rewrite <- app_assoc. by repeat split.
Qed.

Lemma startCluster_spawns_witness :
  ∃ w', startCluster 0 (run [Call (AddCluster config0); Call (AddCluster config1)] fresh)
        = (Ok tt, w')
        ∧ ClusterManager.clusters_ (manager w') = [ClusterConfig.set_workerId 1 config0; config1]
        ∧ ClusterManager.workers (manager w') = {[ 1 := 0 ]}.
Proof.
  destruct (startCluster_spawns
              (run [Call (AddCluster config0); Call (AddCluster config1)] fresh)
              0 0%nat config0 eq_refl eq_refl)
    as (w' & Hrun & Hconfigs & Hworkers & _).
  exists w'. split; [exact Hrun |]. split; [exact Hconfigs | exact Hworkers].
Defined.

(** X3. [addCluster] with an id that no config has, as cluster id or as
    worker id, appends the config at the end and changes nothing else;
    [getCluster] on that id then returns the new config, the last of the
    list. *)
Theorem addCluster_fresh (w : World) (config : ClusterConfig.t) :
  (∀ c, c ∈ ClusterManager.clusters_ (manager w) →
        ¬ by_id_or_worker (ClusterConfig.id config) c) →
  let l := ClusterManager.clusters_ (manager w) in
  addCluster config w = (Ok tt, with_configs (l ++ [config]) w)
  ∧ getCluster (ClusterConfig.id config) (with_configs (l ++ [config]) w)
    = (Ok (Some (length l, config)), with_configs (l ++ [config]) w).
Proof.
  intros Hnone l. split.
  - unfold addCluster, bind. by rewrite getCluster_none.
  - unfold getCluster, gets. do 2 f_equal. simpl.
    apply list_find_Some. split; [| split].
    + by rewrite lookup_app_r, Nat.sub_diag.
    + by left.
    + intros j y Hj Hlt. rewrite lookup_app_l in Hj by done.
      apply Hnone. by eapply list_elem_of_lookup_2.
Qed.

Lemma addCluster_fresh_witness :
  addCluster config1 (run [Call (AddCluster config0)] fresh)
  = (Ok tt, with_configs [config0; config1] (run [Call (AddCluster config0)] fresh)).
Proof.
  apply (addCluster_fresh (run [Call (AddCluster config0)] fresh) config1).
  intros c Hc. simpl in Hc. rewrite elem_of_cons, elem_of_nil in Hc.
  destruct Hc as [-> | []]; intros [H | H]; discriminate H.
Defined.

(** X4. [addCluster] also refuses an id that is the worker id of a config
    already in the list, although no config has that cluster id: the
    duplicate check goes through [getCluster], which matches worker ids
    too. *)
Theorem addCluster_worker_id_clash (w : World) (config c : ClusterConfig.t) :
  c ∈ ClusterManager.clusters_ (manager w) →
  ClusterConfig.workerId c = Some (ClusterConfig.id config) →
  addCluster config w = (Throw (Error "Clusters cannot have the same ID."), w).
Proof.
  intros Hin Hworker.
  destruct (getCluster_found w (ClusterConfig.id config) c Hin) as [r Hr].
  { by right. }
  unfold addCluster, bind. by rewrite Hr.
Qed.

Lemma addCluster_worker_id_clash_witness :
  let w := run [Call (AddCluster config0); Call (StartCluster 0)] fresh in
  Forall (λ c, ClusterConfig.id c ≠ 1) (ClusterManager.clusters_ (manager w))
  ∧ addCluster config1 w = (Throw (Error "Clusters cannot have the same ID."), w).
Proof.
  split.
  - simpl. by repeat constructor.
  - apply (addCluster_worker_id_clash _ config1 (ClusterConfig.set_workerId 1 config0));
      [simpl; apply list_elem_of_here | reflexivity].
Defined.

Lemma with_configs_same (w : World) :
  with_configs (ClusterManager.clusters_ (manager w)) w = w.
Proof. by destruct w as [[] ? ? ?]. Qed.

Lemma filter_other_ids (l : list ClusterConfig.t) (i : Z) :
  i ∉ ClusterConfig.id <$> l →
  filter (λ x, ClusterConfig.id x ≠ i) l = l.
Proof.
  induction l as [| x l IH]; [done |]. rewrite fmap_cons, not_elem_of_cons.
  intros [Hx Hl]. rewrite filter_cons_True by done. by rewrite IH.
Qed.

Lemma removeCluster_index (l : list ClusterConfig.t) (i : Z) (k : nat) (c : ClusterConfig.t) :
  NoDup (ClusterConfig.id <$> l) →
  list_find (by_id i) l = Some (k, c) →
  delete k l = filter (λ x, ClusterConfig.id x ≠ i) l.
Proof.
  revert k. induction l as [| x l IH]; intros k Hnodup; [done |].
  rewrite fmap_cons, NoDup_cons in Hnodup. destruct Hnodup as [Hx Hl].
  simpl. destruct (decide (by_id i x)) as [Hi | Hi].
  - intros [= <- <-]. simpl. unfold by_id in Hi. subst i.
    rewrite filter_cons_False by (intros H; by apply H).
    by rewrite filter_other_ids.
  - destruct (list_find (by_id i) l) as [[k' c'] |] eqn:Hfind; [| done].
    intros [= <- <-]. simpl. rewrite filter_cons_True by done.
    f_equal. by apply IH.
Qed.

(** X5. While the config ids are pairwise different, [removeCluster(id)]
    leaves exactly the configs with another id, in their order, whether or
    not the id was there; it matches cluster ids only (not worker ids), and
    it touches neither [workers] nor the live workers nor the trace: a
    removed cluster's worker stays registered and running. *)
Theorem removeCluster_filter (w : World) (i : Z) :
  unique_ids w →
  removeCluster i w =
    (Ok tt, with_configs (filter (λ x, ClusterConfig.id x ≠ i)
                                 (ClusterManager.clusters_ (manager w))) w).
Proof.
  intros Hunique. unfold removeCluster, bind, gets.
  destruct (list_find (by_id i) (ClusterManager.clusters_ (manager w)))
    as [[k c] |] eqn:Hfind.
  - unfold modify. f_equal. unfold with_configs, set_manager. f_equal.
    unfold ClusterManager.set_clusters_. f_equal.
    by apply removeCluster_index with c.
  - apply list_find_None in Hfind. rewrite filter_other_ids.
    + by rewrite with_configs_same.
    + intros (c & Hc & Hin)%list_elem_of_fmap.
      rewrite Forall_forall in Hfind. by apply (Hfind c).
Qed.

Lemma removeCluster_filter_witness :
  let w := run [Call (AddCluster config0); Call (AddCluster config1);
                Call (StartCluster 0)] fresh in
  ∃ w', removeCluster 0 w = (Ok tt, w')
        ∧ ClusterManager.clusters_ (manager w') = [config1]
        ∧ ClusterManager.workers (manager w') = {[ 1 := 0 ]}
        ∧ cluster_workers (node w') = {[ 1 ]}.
Proof.
  intros w. eexists. split.
  - apply removeCluster_filter. unfold unique_ids. simpl.
    apply (bool_decide_unpack _). by vm_compute.
  - by repeat split.
Defined.

Lemma delete_last {A} (l : list A) (x : A) : delete (length l) (l ++ [x]) = l.
Proof. induction l as [| y l IH]; [done |]. simpl. by rewrite IH. Qed.

(** X6. Removing the id of a config that [addCluster] has just accepted
    gives back the state before the addition. *)
Theorem add_then_remove (w w1 : World) (config : ClusterConfig.t) :
  addCluster config w = (Ok tt, w1) →
  removeCluster (ClusterConfig.id config) w1 = (Ok tt, w).
Proof.
  unfold addCluster, bind, getCluster, gets.
  destruct (list_find (by_id_or_worker (ClusterConfig.id config))
              (ClusterManager.clusters_ (manager w))) as [r |] eqn:Hfind; [done |].
  intros [= <-].
  apply list_find_None in Hfind. rewrite Forall_forall in Hfind.
  unfold removeCluster, bind, gets. simpl.
  assert (Hlast : list_find (by_id (ClusterConfig.id config))
                    (ClusterManager.clusters_ (manager w) ++ [config])
                  = Some (length (ClusterManager.clusters_ (manager w)), config)).
  { apply list_find_Some. split; [| split].
    - by rewrite lookup_app_r, Nat.sub_diag.
    - done.
    - intros j y Hj Hlt. rewrite lookup_app_l in Hj by done.
      intros Hy. apply (Hfind y); [by eapply list_elem_of_lookup_2 | by left]. }
  rewrite Hlast. unfold modify. f_equal.
  destruct w as [[] ? ? ?]. unfold set_manager, ClusterManager.set_clusters_. simpl.
  by rewrite delete_last.
Qed.

Lemma add_then_remove_witness :
  removeCluster 1 (with_configs [config0; config1] (run [Call (AddCluster config0)] fresh))
  = (Ok tt, run [Call (AddCluster config0)] fresh).
Proof.
  apply (add_then_remove (run [Call (AddCluster config0)] fresh) _ config1).
  reflexivity.
Defined.

(** ** The config ids stay pairwise different *)

Section Preserves.
Context {A B : Type} (P : World → Prop).

Lemma preserves_ret (a : A) : preserves P (ret a).
Proof. by intros w. Qed.

Lemma preserves_throw (e : exn) : preserves P (@throw A e).
Proof. by intros w. Qed.

Lemma preserves_exit (code : Z) : preserves P (@exit A code).
Proof. by intros w. Qed.

Lemma preserves_gets (f : World → A) : preserves P (gets f).
Proof. by intros w. Qed.

Lemma preserves_bind (c : M A) (k : A → M B) :
  preserves P c → (∀ a, preserves P (k a)) → preserves P (bind c k).
Proof.
  intros Hc Hk w Hw. unfold bind. specialize (Hc w Hw).
  destruct (c w) as [[a | e | code] w']; simpl in *; [| done | done].
  by apply Hk.
Qed.

Lemma preserves_catch (c : M A) (h : exn → M A) :
  preserves P c → (∀ e, preserves P (h e)) → preserves P (catch c h).
Proof.
  intros Hc Hh w Hw. unfold catch. specialize (Hc w Hw).
  destruct (c w) as [[a | e | code] w']; simpl in *; [done | | done].
  by apply Hh.
Qed.
End Preserves.

Lemma preserves_dispatch (P : World → Prop) (n : nat) (c : M unit) :
  preserves P c → preserves P (dispatch n c).
Proof.
  intros Hc. induction n as [| n IH]; simpl; [apply preserves_ret |].
  by apply preserves_bind.
Qed.

(** A change of the state that leaves the config list alone. *)
Lemma unique_ids_modify (f : World → World) :
  (∀ w, ClusterManager.clusters_ (manager (f w)) = ClusterManager.clusters_ (manager w)) →
  preserves unique_ids (modify f).
Proof. intros Hf w Hw. unfold unique_ids in *. simpl. by rewrite Hf. Qed.

Lemma unique_ids_emit (e : effect) : preserves unique_ids (emit e).
Proof. by apply unique_ids_modify. Qed.

Create HintDb ids.

#[local] Hint Resolve preserves_ret preserves_throw preserves_exit preserves_gets
  preserves_dispatch unique_ids_emit : ids.

Ltac ids_step :=
  lazymatch goal with
  | |- preserves _ (bind _ _) => apply preserves_bind; [| intros ?]
  | |- preserves _ (catch _ _) => apply preserves_catch; [| intros ?]
  | |- preserves _ (dispatch _ _) => apply preserves_dispatch
  | |- preserves _ (modify _) => apply unique_ids_modify; intros ?; reflexivity
  | |- preserves _ (match ?x with _ => _ end) => destruct x
  | |- preserves _ (let _ := _ in _) => cbv zeta
  | |- _ => solve [eauto with ids]
  end.

Ltac ids := repeat ids_step.

Lemma unique_ids_startCluster (clusterId : Z) : preserves unique_ids (startCluster clusterId).
Proof.
  intros w Hw. unfold startCluster, bind at 1, getCluster, gets at 1.
  destruct (list_find _ _) as [[ref c] |] eqn:Hfind; [| done].
  apply list_find_Some in Hfind as (Href & _ & _).
  unfold fork, bind, gets, modify, emit, ret, throw. simpl.
  destruct (cluster_isMaster (node w)); simpl; [| done].
  unfold unique_ids in *. simpl. rewrite list_fmap_insert. simpl.
  rewrite list_insert_id; [done |]. by rewrite list_lookup_fmap, Href.
Qed.

Lemma unique_ids_addCluster (config : ClusterConfig.t) : preserves unique_ids (addCluster config).
Proof.
  intros w Hw. unfold addCluster, bind, getCluster, gets.
  destruct (list_find _ _) as [r |] eqn:Hfind; [done |].
  apply list_find_None in Hfind. rewrite Forall_forall in Hfind.
  unfold unique_ids in *. simpl. rewrite fmap_app. apply NoDup_app.
  split; [done |]. split; [| apply NoDup_singleton].
  intros i (c & -> & Hc)%list_elem_of_fmap Hi. simpl in Hi.
  apply list_elem_of_singleton in Hi. apply (Hfind c Hc). by left.
Qed.

Lemma unique_ids_removeCluster (i : Z) : preserves unique_ids (removeCluster i).
Proof.
  intros w Hw. unfold removeCluster, bind, gets.
  destruct (list_find _ _) as [[k c] |]; [| done].
  unfold unique_ids in *. simpl. rewrite list_fmap_delete.
  eapply sublist_NoDup; [exact Hw | apply sublist_delete].
Qed.

#[local] Hint Resolve unique_ids_startCluster unique_ids_addCluster
  unique_ids_removeCluster : ids.

Lemma unique_ids_perform (c : call) : preserves unique_ids (perform c).
Proof.
  assert (Hinfo : ∀ fuel start e v, preserves unique_ids (fetchInfo_rec fuel start e v)).
  { induction fuel as [| fuel IH]; intros; simpl;
      unfold stack_overflow, cluster_worker, send; ids. }
  assert (Hstats : ∀ fuel l start, preserves unique_ids (updateStats_rec fuel l start)).
  { induction fuel as [| fuel IH]; intros; simpl; unfold stack_overflow; ids. }
  assert (Hcast : ∀ fuel start m, preserves unique_ids (broadcast_rec fuel start m)).
  { induction fuel as [| fuel IH]; intros; simpl;
      unfold stack_overflow, cluster_worker, send; ids. }
  destruct c; simpl;
    unfold getCluster, fetchInfo, updateStats, broadcast, sendTo, isMaster,
      cluster_worker, sendWebhook, fetchShardCount, fetchGuildCount; ids.
Qed.

Lemma unique_ids_run_script (s : script) : preserves unique_ids (run_script s).
Proof.
  induction s as [| e | c k IH]; simpl; [ids | ids |].
  intros w Hw. pose proof (unique_ids_perform c w Hw) as Hc.
  destruct (perform c w) as [[a | e | code] w']; simpl in *;
    [by apply IH | by apply IH | done].
Qed.

#[local] Hint Resolve unique_ids_perform unique_ids_run_script : ids.

Lemma unique_ids_step (o : op) : preserves unique_ids (step o).
Proof.
  assert (Hdeliver : ∀ message n i, preserves unique_ids (deliver n i message)).
  { intros message. induction n as [| n IH]; intros i; simpl; [ids |].
    apply preserves_bind; [ids | intros [this |]; [| ids]].
    apply preserves_bind; [| intros ?; ids].
    unfold on_message.
    destruct (negb _); [ids |]. destruct (strict_eq _ _); [| ids].
    cbv zeta. destruct (gt _ _); [| ids]. unfold connect. ids. }
  destruct o; simpl;
    unfold setClusterStrategy, setConnectStrategy, setReconnectStrategy,
      launch, isMaster, spawn, launch_tick, launch_body, getStartUpLogo,
      handleRejection, on_worker_message, on_exit, restartCluster, on_execute,
      cluster_worker, send, process_message; ids.
Qed.

(** X7. The ids of the configs in the manager's list are pairwise
    different in every state the manager reaches from its construction,
    whatever is called and whatever events arrive: [addCluster] is the only
    writer of ids and refuses a second config with an id already there. *)
Theorem unique_ids_always (d : Defaults) (master : bool) (token : string)
    (options : Options.partial) (ops : list op) :
  unique_ids (run ops (boot d master token options)).
Proof.
  assert (Hrun : ∀ ops w, unique_ids w → unique_ids (run ops w)).
  { clear ops. induction ops as [| o ops IH]; intros w Hw; simpl; [done |].
    pose proof (unique_ids_step o w Hw) as Ho.
    destruct (step o w) as [[[] | e | code] w']; simpl in *; [by apply IH | by apply IH | done]. }
  apply Hrun. unfold unique_ids. simpl. apply NoDup_nil_2.
Qed.

(** ** updateStats, fetchInfo, broadcast, sendTo *)

Lemma logs_app (es1 es2 : list effect) (w : World) :
  logs (es1 ++ es2) w = logs es2 (logs es1 w).
Proof. unfold logs. simpl. by rewrite app_assoc. Qed.

Lemma updateStats_rec_sends (fuel : nat) (clusters : list Z) (n : nat) (w : World) :
  (length clusters - n < fuel)%nat →
  updateStats_rec fuel clusters (Z.of_nat n) w =
    (Ok tt, logs (map (λ worker, Send worker stats_message) (drop n clusters)) w).
Proof.
  revert n w. induction fuel as [| fuel IH]; intros n w Hfuel; [lia |].
  simpl. unfold array_get. destruct (Z.ltb_spec (Z.of_nat n) 0) as [| _]; [lia |].
  rewrite Nat2Z.id.
  destruct (clusters !! n) as [worker |] eqn:Hn.
  - rewrite (drop_S _ _ _ Hn). simpl map. rewrite logs_cons.
    unfold bind, emit, modify.
    replace (Z.of_nat n + 1) with (Z.of_nat (S n)) by lia.
    apply IH. apply lookup_lt_Some in Hn. lia.
  - apply lookup_ge_None in Hn. rewrite drop_ge by done. by rewrite logs_nil.
Qed.

(** X8. [updateStats(clusters, start)] sends the [statsUpdate] message to
    the workers of the array from index [start] to its end, in order, and
    returns; with [start] negative or past the end nothing is sent. *)
Theorem updateStats_sends (w : World) (clusters : list Z) (start : Z) :
  updateStats clusters start w =
    (Ok tt, logs (map (λ worker, Send worker stats_message)
                      (if (start <? 0)%Z then [] else drop (Z.to_nat start) clusters)) w).
Proof.
  unfold updateStats. destruct (Z.ltb_spec start 0) as [Hneg | Hpos].
  - simpl. unfold array_get. destruct (Z.ltb_spec start 0); [| lia]. by rewrite logs_nil.
  - rewrite <- (Z2Nat.id start) at 1 by done. apply updateStats_rec_sends. lia.
Qed.

Lemma fetchInfo_rec_run (fuel : nat) (w : World) (s : Z) (eventName : string) (v : value) :
  workers_live w →
  (length (consecutive fuel (ClusterManager.clusters (manager w)) s) < fuel)%nat →
  fetchInfo_rec fuel s eventName v w =
    (Ok tt, logs (map (λ c, Send (RawCluster.workerID c) (info_message eventName v))
                      (consecutive fuel (ClusterManager.clusters (manager w)) s)) w).
Proof.
  revert w s. induction fuel as [| fuel IH]; intros w s Hlive; simpl; [lia |].
  unfold bind at 1. unfold gets at 1.
  destruct (ClusterManager.clusters (manager w) !! s) as [c |] eqn:Hs; simpl.
  - intros Hlt. unfold bind at 1.
    rewrite cluster_worker_live by eauto.
    unfold bind at 1. unfold send, emit, modify.
    rewrite logs_cons. apply (IH (log _ w)); [done | simpl; lia].
  - intros _. by rewrite logs_nil.
Qed.

(** X9. With every registered cluster's worker live, [fetchInfo(start,
    eventName, value)] sends the message [{eventName, value}] to the workers
    of the clusters registered under the consecutive ids from [start] up to
    the first unregistered id, in ascending order, to nobody else, and
    returns. *)
Theorem fetchInfo_consecutive_run (w : World) (s : Z) (eventName : string) (v : value) :
  workers_live w →
  ∃ run : list RawCluster.t,
    (∀ (i : nat) c, run !! i = Some c →
       ClusterManager.clusters (manager w) !! (s + Z.of_nat i) = Some c)
    ∧ ClusterManager.clusters (manager w) !! (s + Z.of_nat (length run)) = None
    ∧ fetchInfo s eventName v w =
        (Ok tt, logs (map (λ c, Send (RawCluster.workerID c) (info_message eventName v)) run) w).
Proof.
  intros Hlive.
  set (m := ClusterManager.clusters (manager w)).
  pose proof (consecutive_length (S (size m)) m s) as Hlen.
  exists (consecutive (S (size m)) m s). split; [| split].
  - intros i c. apply consecutive_lookup.
  - apply consecutive_gap. lia.
  - unfold fetchInfo, bind, gets. apply fetchInfo_rec_run; [done | fold m; lia].
Qed.

Lemma fetchInfo_consecutive_run_witness :
  ∃ run : list RawCluster.t,
    length run = 2%nat
    ∧ fetchInfo 0 "guild" (VString "1") populated =
        (Ok tt, logs (map (λ c, Send (RawCluster.workerID c)
                                     (info_message "guild" (VString "1"))) run) populated).
Proof.
  destruct (fetchInfo_consecutive_run populated 0 "guild" (VString "1")
              workers_live_populated) as (run & Hin & Hgap & Hrun).
  exists run. split; [| exact Hrun].
  destruct run as [| c0 [| c1 [| c2 run]]]; [discriminate Hgap | discriminate Hgap | done |].
  specialize (Hin 2%nat c2 eq_refl). discriminate Hin.
Defined.

Lemma broadcast_rec_aborts (run : list RawCluster.t) (dead : RawCluster.t)
    (fuel : nat) (w : World) (s : Z) (message : object) :
  (length run < fuel)%nat →
  (∀ (i : nat) c, run !! i = Some c →
     ClusterManager.clusters (manager w) !! (s + Z.of_nat i) = Some c
     ∧ RawCluster.workerID c ∈ cluster_workers (node w)) →
  ClusterManager.clusters (manager w) !! (s + Z.of_nat (length run)) = Some dead →
  RawCluster.workerID dead ∉ cluster_workers (node w) →
  broadcast_rec fuel s message w =
    (Throw (TypeError "Cannot read property 'send' of undefined"),
     logs (map (λ c, Send (RawCluster.workerID c) message) run) w).
Proof.
  revert fuel w s. induction run as [| c run IH]; intros fuel w s Hfuel Hrun Hdead Hgone;
    (destruct fuel as [| fuel]; [simpl in Hfuel; lia |]); simpl.
  - simpl in Hdead. rewrite Z.add_0_r in Hdead.
    unfold bind at 1, gets at 1. rewrite Hdead. unfold bind at 1.
    rewrite cluster_worker_dead by done. by rewrite logs_nil.
  - destruct (Hrun 0%nat c eq_refl) as [Hc Hlive]. rewrite Z.add_0_r in Hc.
    unfold bind at 1, gets at 1. rewrite Hc. unfold bind at 1.
    rewrite cluster_worker_live by done.
    unfold bind at 1, send, emit, modify. rewrite logs_cons.
    apply IH.
    + simpl in Hfuel. lia.
    + intros i c' Hi. simpl.
      replace (s + 1 + Z.of_nat i) with (s + Z.of_nat (S i)) by lia.
      by apply Hrun.
    + simpl. simpl in Hdead.
      by replace (s + 1 + Z.of_nat (length run)) with (s + Z.of_nat (S (length run))) by lia.
    + done.
Qed.

(** X10. When the clusters registered under [start], [start+1], ... have
    live workers up to one whose worker is gone, [broadcast] sends the
    message to the live ones before it, in order, and then throws a
    TypeError at the dead one: the earlier messages are out, the clusters
    after it get nothing. *)
Theorem broadcast_aborts_at_dead_worker (w : World) (s : Z) (message : object)
    (run : list RawCluster.t) (dead : RawCluster.t) :
  (∀ (i : nat) c, run !! i = Some c →
     ClusterManager.clusters (manager w) !! (s + Z.of_nat i) = Some c
     ∧ RawCluster.workerID c ∈ cluster_workers (node w)) →
  ClusterManager.clusters (manager w) !! (s + Z.of_nat (length run)) = Some dead →
  RawCluster.workerID dead ∉ cluster_workers (node w) →
  broadcast s message w =
    (Throw (TypeError "Cannot read property 'send' of undefined"),
     logs (map (λ c, Send (RawCluster.workerID c) message) run) w).
Proof.
  intros Hrun Hdead Hgone. unfold broadcast, bind at 1, gets at 1.
  apply broadcast_rec_aborts with dead; [| done | done | done].
  set (m := ClusterManager.clusters (manager w)).
  pose proof (consecutive_length (S (length run)) m s) as Hlen.
  rewrite consecutive_full in Hlen; [lia |].
  intros i Hi. destruct (decide (i = length run)) as [-> | Hne]; [by eexists |].
  destruct (lookup_lt_is_Some_2 run i ltac:(lia)) as [c Hc].
  exists c. by apply Hrun.
Qed.

Lemma broadcast_aborts_at_dead_worker_witness :
  let w := run [WorkerExit 2 1] populated in
  broadcast 0 item0 w =
    (Throw (TypeError "Cannot read property 'send' of undefined"),
     logs [Send 1 item0] w).
Proof.
  intros w.
  apply (broadcast_aborts_at_dead_worker w 0 item0 [raw 1 0 3] (raw 2 4 7)).
  - intros [| i] c Hc; [| destruct i; discriminate Hc].
    injection Hc as <-. split; [reflexivity |].
    apply (bool_decide_unpack _). by vm_compute.
  - reflexivity.
  - apply (bool_decide_unpack _). by vm_compute.
Defined.

(** X11. For a cluster id that is in the [clusters] map: in the master
    process [sendTo] returns normally, having sent the message to the
    cluster's worker when that worker is live and nothing when it is not;
    in a worker process, where Node has no [cluster.workers] table, it
    throws a TypeError on the lookup and sends nothing. Either way nothing
    else changes. *)
Theorem sendTo_registered (w : World) (clusterID : Z) (message : object)
    (c : RawCluster.t) :
  ClusterManager.clusters (manager w) !! clusterID = Some c →
  sendTo clusterID message w =
    if cluster_isMaster (node w)
    then (Ok tt, if decide (RawCluster.workerID c ∈ cluster_workers (node w))
                 then log (Send (RawCluster.workerID c) message) w
                 else w)
    else (Throw (no_workers_table (RawCluster.workerID c)), w).
Proof.
  intros Hc. destruct (cluster_isMaster (node w)) eqn:Hmaster.
  - destruct (decide _) as [Hlive | Hdead].
    + by apply sendTo_live_worker_sends.
    + by apply sendTo_dead_worker_drops with c.
  - by apply sendTo_in_worker_throws.
Qed.

Lemma sendTo_registered_witness :
  sendTo 1 item0 populated = (Ok tt, log (Send 2 item0) populated)
  ∧ sendTo 1 item0 (run [WorkerExit 2 1] populated)
    = (Ok tt, run [WorkerExit 2 1] populated)
  ∧ sendTo 1 item0 (set_node (λ _, node worker_process) populated)
    = (Throw (TypeError "Cannot read property '2' of undefined"),
       set_node (λ _, node worker_process) populated).
Proof.
  split; [| split].
  - exact (sendTo_registered populated 1 item0 (raw 2 4 7) eq_refl).
  - exact (sendTo_registered (run [WorkerExit 2 1] populated) 1 item0 (raw 2 4 7) eq_refl).
  - exact (sendTo_registered (set_node (λ _, node worker_process) populated) 1 item0
             (raw 2 4 7) eq_refl).
Defined.

(** ** The listeners in the states the manager reaches *)

Lemma dispatch_noop (n : nat) (c : M unit) (w : World) :
  c w = (Ok tt, w) → dispatch n c w = (Ok tt, w).
Proof.
  intros Hc. induction n as [| n IH]; simpl; [done |]. unfold bind. by rewrite Hc.
Qed.

(** X12. In every state that a newly constructed manager reaches through
    its own methods and events, the queue's [execute] event sends nothing,
    whatever the item: the [clusters] map that the listener consults is
    empty, so no worker is ever told to connect. *)
Theorem execute_never_sends (d : Defaults) (master : bool) (token : string)
    (options : Options.partial) (ops : list op) (item : object) :
  let w := run ops (boot d master token options) in
  step (QueueExecute item) w = (Ok tt, w).
Proof.
  intros w. simpl. unfold bind at 1, gets at 1.
  apply dispatch_noop. unfold on_execute, bind, gets.
  subst w. rewrite run_keeps_clusters. simpl.
  by destruct (get item "clusterID").
Qed.

(** X13. In every such state [sendTo] throws a TypeError, for every
    cluster id and message, and sends nothing. *)
Theorem sendTo_always_throws (d : Defaults) (master : bool) (token : string)
    (options : Options.partial) (ops : list op) (clusterID : Z) (message : object) :
  let w := run ops (boot d master token options) in
  sendTo clusterID message w =
    (Throw (TypeError "Cannot read property 'workerID' of undefined"), w).
Proof.
  intros w. unfold sendTo, bind, gets.
  subst w. rewrite run_keeps_clusters. simpl. by rewrite lookup_empty.
Qed.

Lemma dispatch_on_execute (n : nat) (w : World) (item : object) (c : RawCluster.t) :
  clusters_get (ClusterManager.clusters (manager w)) (get item "clusterID") = Some c →
  RawCluster.workerID c ∈ cluster_workers (node w) →
  dispatch n (on_execute item) w =
    (Ok tt, logs (replicate n (Send (RawCluster.workerID c)
                                    (<[ "eventName" := VString "connect" ]> item))) w).
Proof.
  revert w. induction n as [| n IH]; intros w Hc Hlive; simpl.
  - by rewrite logs_nil.
  - unfold bind at 1. unfold on_execute at 1, bind at 1, gets at 1. rewrite Hc.
    unfold bind at 1. rewrite cluster_worker_live by done.
    unfold send, emit, modify. rewrite logs_cons. by apply IH.
Qed.

(** X14. [launch] adds its listeners each time it is called, without a
    guard: when the item's cluster is registered with a live worker, one
    [execute] event sends the connect message once per call of [launch] so
    far (not at all before the first). *)
Theorem execute_once_per_launch (w : World) (item : object) (c : RawCluster.t) :
  clusters_get (ClusterManager.clusters (manager w)) (get item "clusterID") = Some c →
  RawCluster.workerID c ∈ cluster_workers (node w) →
  step (QueueExecute item) w =
    (Ok tt, logs (replicate (listeners (node w))
                            (Send (RawCluster.workerID c)
                                  (<[ "eventName" := VString "connect" ]> item))) w)
  ∧ listeners (node (snd (launch w))) = S (listeners (node w)).
Proof.
  intros Hc Hlive. split.
  - simpl. unfold bind at 1, gets at 1. by apply dispatch_on_execute.
  - unfold launch, isMaster, bind at 1, gets at 1.
    destruct (cluster_isMaster (node w)); reflexivity.
Qed.

Lemma execute_once_per_launch_witness :
  sends (trace (run [Launch; QueueExecute item0] populated))
  = [(1, <[ "eventName" := VString "connect" ]> item0);
     (1, <[ "eventName" := VString "connect" ]> item0)].
Proof.
  assert (Hlive : RawCluster.workerID (raw 1 0 3) ∈ cluster_workers (node populated)).
  { apply (bool_decide_unpack _). by vm_compute. }
  destruct (execute_once_per_launch (run [Launch] populated) item0 (raw 1 0 3)
              eq_refl Hlive) as [Hstep _].
  change (run [Launch; QueueExecute item0] populated)
    with (match step (QueueExecute item0) (run [Launch] populated) with
          | (Exit _, w') => w'
          | (_, w') => w'
          end).
  rewrite Hstep. reflexivity.
Defined.

(** ** fetchShardCount at its edges *)

(** X15. With at least one recommended shard and a positive
    [guildsPerShard], the shard count that [fetchShardCount] resolves to is
    an integer that is at least 1, at least [shardCountOverride], and large
    enough for the estimated guilds: count * guildsPerShard >= shards * 1000. *)
Theorem fetchShardCount_covers (w : World) (sessionData : SessionData) :
  1 ≤ shards sessionData →
  0 < Options.guildsPerShard (ClusterManager.options (manager w)) →
  ∃ count,
    fst (fetchShardCount (Some sessionData) w) = Ok (Finite count)
    ∧ 1 ≤ count
    ∧ Options.shardCountOverride (ClusterManager.options (manager w)) ≤ count
    ∧ shards sessionData * 1000
      ≤ count * Options.guildsPerShard (ClusterManager.options (manager w)).
Proof.
  intros Hs Hg.
  destruct (ceil_div_ceiling (shards sessionData * 1000) _ Hg) as (c & Hc & Hlow & Hhigh).
  exists (Z.max (Options.shardCountOverride (ClusterManager.options (manager w))) c).
  split; [| split; [| split]].
  - unfold fetchShardCount, bind. rewrite fetchGuildCount_ok by lia.
    unfold gets, ret. simpl. by rewrite Hc.
  - assert (1 ≤ c) by nia. lia.
  - lia.
  - nia.
Qed.

Lemma fetchShardCount_covers_witness :
  ∃ count, fst (fetchShardCount (Some {| shards := 7 |}) fresh) = Ok (Finite count)
           ∧ 7 * 1000 ≤ count * 1500.
Proof.
  destruct (fetchShardCount_covers fresh {| shards := 7 |} ltac:(simpl; lia)
              ltac:(simpl; lia)) as (count & Hrun & _ & _ & Hcover).
  exists count. split; [exact Hrun | exact Hcover].
Defined.

(** X16. A [guildsPerShard] of zero is not rejected: with at least one
    recommended shard the division gives infinity, and [fetchShardCount]
    resolves to [Infinity] whatever the override. A negative
    [guildsPerShard] gives a count that is not positive, so the result is
    the override as soon as the override is not negative. *)
Theorem fetchShardCount_bad_divisor (w : World) (sessionData : SessionData) :
  1 ≤ shards sessionData →
  let g := Options.guildsPerShard (ClusterManager.options (manager w)) in
  let o := Options.shardCountOverride (ClusterManager.options (manager w)) in
  (g = 0 → fst (fetchShardCount (Some sessionData) w) = Ok Infinity)
  ∧ (g < 0 → 0 ≤ o → fst (fetchShardCount (Some sessionData) w) = Ok (Finite o)).
Proof.
  intros Hs g o. subst g o.
  assert (Hrun : fst (fetchShardCount (Some sessionData) w) =
            Ok (JS.max (Options.shardCountOverride (ClusterManager.options (manager w)))
                  (ceil_div (shards sessionData * 1000)
                     (Options.guildsPerShard (ClusterManager.options (manager w)))))).
  { unfold fetchShardCount, bind. by rewrite fetchGuildCount_ok by lia. }
  split.
  - intros Hg. rewrite Hrun, Hg. unfold ceil_div. simpl.
    destruct (Z.ltb_spec 0 (shards sessionData * 1000)); [done | lia].
  - intros Hg Ho. rewrite Hrun. unfold ceil_div.
    destruct (Z.eqb_spec (Options.guildsPerShard (ClusterManager.options (manager w))) 0);
      [lia |].
    simpl. do 2 f_equal.
    pose proof (Z.div_mod (- (shards sessionData * 1000))
                  (Options.guildsPerShard (ClusterManager.options (manager w)))
                  ltac:(lia)) as Hdm.
    pose proof (Z.mod_neg_bound (- (shards sessionData * 1000))
                  (Options.guildsPerShard (ClusterManager.options (manager w)))
                  ltac:(lia)) as Hm.
    nia.
Qed.

Lemma fetchShardCount_bad_divisor_witness :
  fst (fetchShardCount (Some {| shards := 1 |})
         (boot sample_defaults true "token" (options_guildsPerShard 0))) = Ok Infinity
  ∧ fst (fetchShardCount (Some {| shards := 1 |})
           (boot sample_defaults true "token" (options_guildsPerShard (-1500)))) = Ok (Finite 0).
Proof.
  split.
  - apply (fetchShardCount_bad_divisor
             (boot sample_defaults true "token" (options_guildsPerShard 0))
             {| shards := 1 |}); [simpl; lia | reflexivity].
  - apply (fetchShardCount_bad_divisor
             (boot sample_defaults true "token" (options_guildsPerShard (-1500)))
             {| shards := 1 |}); simpl; lia.
Defined.

(** ** What only the constructor writes *)

Lemma preserves_modify (P : World → Prop) (f : World → World) :
  (∀ w, P w → P (f w)) → preserves P (modify f).
Proof. intros Hf w Hw. by apply Hf. Qed.

Ltac frame_step :=
  lazymatch goal with
  | |- preserves _ (bind _ _) => apply preserves_bind; [| intros ?]
  | |- preserves _ (catch _ _) => apply preserves_catch; [| intros ?]
  | |- preserves _ (dispatch _ _) => apply preserves_dispatch
  | |- preserves _ (modify _) =>
      apply preserves_modify; let H := fresh in intros ? H; exact H
  | |- preserves _ (emit _) =>
      apply preserves_modify; let H := fresh in intros ? H; exact H
  | |- preserves _ (ret _) => apply preserves_ret
  | |- preserves _ (throw _) => apply preserves_throw
  | |- preserves _ (exit _) => apply preserves_exit
  | |- preserves _ (gets _) => apply preserves_gets
  | |- preserves _ (match ?x with _ => _ end) => destruct x
  | |- preserves _ (let _ := _ in _) => cbv zeta
  | |- _ => solve [eauto]
  end.

Ltac frame := repeat frame_step.

Section Constructed.
Variable x : string * Options.t * Webhooks * ClusterManagerStats * gmap string Z.

Let P : World → Prop := λ w, constructed w = x.

Lemma constructed_perform (c : call) : preserves P (perform c).
Proof.
  assert (Hinfo : ∀ fuel start e v, preserves P (fetchInfo_rec fuel start e v)).
  { induction fuel as [| fuel IH]; intros; simpl;
      unfold stack_overflow, cluster_worker, send; frame. }
  assert (Hstats : ∀ fuel l start, preserves P (updateStats_rec fuel l start)).
  { induction fuel as [| fuel IH]; intros; simpl; unfold stack_overflow; frame. }
  assert (Hcast : ∀ fuel start m, preserves P (broadcast_rec fuel start m)).
  { induction fuel as [| fuel IH]; intros; simpl;
      unfold stack_overflow, cluster_worker, send; frame. }
  destruct c; simpl;
    unfold startCluster, addCluster, removeCluster, fork,
      getCluster, fetchInfo, updateStats, broadcast, sendTo, isMaster,
      cluster_worker, sendWebhook, fetchShardCount, fetchGuildCount; frame.
Qed.

Lemma constructed_run_script (s : script) : preserves P (run_script s).
Proof.
  induction s as [| e | c k IH]; simpl; [frame | frame |].
  intros w Hw. pose proof (constructed_perform c w Hw) as Hc.
  destruct (perform c w) as [[a | e | code] w']; simpl in *;
    [by apply IH | by apply IH | done].
Qed.

Lemma constructed_step (o : op) : preserves P (step o).
Proof.
  pose proof constructed_perform as Hperform.
  pose proof constructed_run_script as Hscript.
  assert (Hdeliver : ∀ message n i, preserves P (deliver n i message)).
  { intros message. induction n as [| n IH]; intros i; simpl; [frame |].
    apply preserves_bind; [frame | intros [this |]; [| frame]].
    apply preserves_bind; [| intros ?; frame].
    unfold on_message.
    destruct (negb _); [frame |]. destruct (strict_eq _ _); [| frame].
    cbv zeta. destruct (gt _ _); [| frame]. unfold connect. frame. }
  destruct o; simpl;
    unfold setClusterStrategy, setConnectStrategy, setReconnectStrategy,
      launch, isMaster, spawn, launch_tick, launch_body, getStartUpLogo,
      handleRejection, on_worker_message, on_exit, restartCluster, on_execute,
      cluster_worker, send, process_message; frame.
Qed.

Lemma constructed_run (ops : list op) (w : World) : P w → P (run ops w).
Proof.
  revert w. induction ops as [| o ops IH]; intros w Hw; simpl; [done |].
  pose proof (constructed_step o w Hw) as Ho.
  destruct (step o w) as [[[] | e | code] w']; simpl in *; [by apply IH | by apply IH | done].
Qed.
End Constructed.

(** X17. The token, the webhook configuration, the stats, the [callbacks]
    map and every option other than [clientOptions] are what the constructor
    made them in every state the manager reaches: no method and no listener
    writes them. In particular [guildsPerShard] and [shardCountOverride]
    stay as given and the stats stay at their initial zeros, [updateStats]
    included. ([clientOptions] is not fixed: [Cluster.connect] writes the
    shard options into it.) *)
Theorem constructed_fields_fixed (d : Defaults) (master : bool) (token : string)
    (options : Options.partial) (ops : list op) :
  let w0 := boot d master token options in
  let w := run ops w0 in
  ClusterManager.token (manager w) = token
  ∧ Options.others (ClusterManager.options (manager w))
    = Options.others (Options.with_defaults options)
  ∧ Options.guildsPerShard (ClusterManager.options (manager w))
    = default 1500 (Options.p_guildsPerShard options)
  ∧ Options.shardCountOverride (ClusterManager.options (manager w))
    = default 0 (Options.p_shardCountOverride options)
  ∧ ClusterManager.webhooks (manager w) = ClusterManager.webhooks (manager w0)
  ∧ ClusterManager.stats (manager w) = ClusterManager.stats (manager w0)
  ∧ stats_guilds (ClusterManager.stats (manager w)) = 0
  ∧ ClusterManager.callbacks (manager w) = ∅.
Proof.
  intros w0 w.
  pose proof (constructed_run (constructed w0) ops w0 eq_refl) as Hrun.
  fold w in Hrun.
  pose proof (f_equal (λ t, t.1.1.1.1) Hrun) as Htoken.
  pose proof (f_equal (λ t, t.1.1.1.2) Hrun) as Hoptions.
  pose proof (f_equal (λ t, t.1.1.2) Hrun) as Hwebhooks.
  pose proof (f_equal (λ t, t.1.2) Hrun) as Hstats.
  pose proof (f_equal (λ t, t.2) Hrun) as Hcallbacks.
  simpl in Htoken, Hoptions, Hwebhooks, Hstats, Hcallbacks.
  rewrite Htoken, Hwebhooks, Hstats, Hcallbacks.
  split; [done |]. split; [exact Hoptions |].
  split; [exact (f_equal Options.guildsPerShard Hoptions) |].
  split; [exact (f_equal Options.shardCountOverride Hoptions) |].
  by repeat split.
Qed.

(** The exception is real: handling a [connect] message changes
    [options.clientOptions]. *)
Example connect_changes_options :
  Options.clientOptions
    (ClusterManager.options
       (manager (run [ProcessMessage (connect_message 4)] worker_process)))
  !! "maxShards" = Some (VNumber 4)
  ∧ Options.clientOptions (ClusterManager.options (manager worker_process))
    !! "maxShards" = None.
Proof. split; reflexivity. Qed.

(** X18. Whether [sendWebhook] does anything is settled at construction:
    in every state the manager reaches, [sendWebhook(type, embed)] executes
    exactly one webhook, with the id and token given for that type in the
    constructor's [webhooks] option, and does nothing at all when none was
    given for that type. *)
Theorem sendWebhook_as_constructed (d : Defaults) (master : bool) (token : string)
    (options : Options.partial) (ops : list op) (type : WebhookType) (embed : object) :
  let w := run ops (boot d master token options) in
  sendWebhook type embed w =
    (Ok tt, match configured_webhook options type with
            | Some webhook =>
                log (ExecuteWebhook (webhook_id webhook) (webhook_token webhook) embed) w
            | None => w
            end).
Proof.
  intros w.
  pose proof (constructed_run (constructed (boot d master token options)) ops _ eq_refl)
    as Hrun.
  fold w in Hrun.
  pose proof (f_equal (λ t, t.1.1.2) Hrun) as Hwebhooks. simpl in Hwebhooks.
  unfold sendWebhook, bind, gets. rewrite Hwebhooks. simpl.
  unfold configured_webhook.
  destruct options as [? ? ? ? ? ? ? ? ? ? ? ? ? ? [wh |]]; simpl; destruct type; simpl;
    try done; by destruct (_ wh).
Qed.

(** ** The tick of launch *)

Lemma dispatch_handleRejection (n : nat) (reason : exn) (w : World) :
  dispatch n (handleRejection reason) w =
    (Ok tt, logs (replicate n (rejection_entry reason)) w).
Proof.
  revert w. induction n as [| n IH]; intros w; simpl.
  - by rewrite logs_nil.
  - unfold bind at 1, handleRejection at 1, emit, modify.
    rewrite logs_cons. apply IH.
Qed.

(** X19. When the logo file cannot be read and [startUpLogoPath] is set,
    the tick of [launch] clears the console, logs the failure and exits the
    process with code 1: no strategy is run, no config is added, nothing is
    forked. *)
Theorem tick_exits_on_missing_logo (w : World) (logo : LogoFile) :
  logo_contents logo = None →
  Options.startUpLogoPath (ClusterManager.options (manager w)) ≠ "" →
  launch_tick logo w =
    (Exit 1, logs [ConsoleClear;
                   LoggerError [[VString "Failed to locate logo file: ";
                                 VString (logo_path logo)]]] w).
Proof.
  intros Hlogo Hpath.
  unfold launch_tick, catch, launch_body, bind at 1, emit at 1, modify at 1.
  unfold bind at 1, getStartUpLogo. rewrite Hlogo.
  unfold bind at 1, gets at 1. simpl.
  destruct (String.eqb_spec
              (Options.startUpLogoPath (ClusterManager.options (manager w))) "");
    [done |].
  unfold bind, emit, modify, exit. simpl.
  unfold logs, log. simpl. by rewrite <- app_assoc.
Qed.

Lemma tick_exits_on_missing_logo_witness :
  let w := run [Launch] (boot sample_defaults true "token" (options_logo "logo.txt")) in
  fst (launch_tick {| logo_path := "/srv/logo.txt"; logo_contents := None |} w) = Exit 1
  ∧ ClusterManager.clusters_
      (manager (run [Tick {| logo_path := "/srv/logo.txt"; logo_contents := None |}] w)) = [].
Proof.
  intros w. split.
  - rewrite (tick_exits_on_missing_logo w
               {| logo_path := "/srv/logo.txt"; logo_contents := None |} eq_refl);
      [reflexivity | discriminate].
  - reflexivity.
Defined.

Lemma getStartUpLogo_goes_on (w : World) (logo : LogoFile) :
  (logo_contents logo = None →
   Options.startUpLogoPath (ClusterManager.options (manager w)) = "") →
  getStartUpLogo logo w =
    (Ok (if String.eqb (default "" (logo_contents logo)) "" then None
         else Some (default "" (logo_contents logo))), w).
Proof.
  intros Hpath. unfold getStartUpLogo.
  destruct (logo_contents logo) as [contents |]; [done |].
  unfold bind, gets. by rewrite (Hpath eq_refl).
Qed.

(** X20. When the logo step lets the tick go on (the file was read, or it
    could not be read and no [startUpLogoPath] is set, which is the
    default), the cluster strategy returns and the config list is empty,
    the tick of [launch] stops with the error "Cluster strategy failed to
    produce at least 1 cluster.": it is logged as an unhandled rejection,
    once per call of [launch], the tick itself ends normally, and neither
    [setupMaster] nor the connect strategy is reached. *)
Theorem tick_without_clusters (w w2 : World) (logo : LogoFile) :
  (logo_contents logo = None →
   Options.startUpLogoPath (ClusterManager.options (manager w)) = "") →
  let strategy := ClusterManager.clusterStrategy (manager w) in
  run_script (IClusterStrategy.run strategy (ClusterManager.options (manager w)))
             (logs (tick_preamble (default "" (logo_contents logo))
                                  (IClusterStrategy.name strategy)) w)
  = (Ok tt, w2) →
  ClusterManager.clusters_ (manager w2) = [] →
  launch_tick logo w =
    (Ok tt, logs (replicate (listeners (node w2))
                    (rejection_entry
                       (Error "Cluster strategy failed to produce at least 1 cluster.")))
                 w2).
Proof.
  intros Hlogo strategy Hscript Hempty.
  unfold launch_tick, catch.
  assert (Hbody : launch_body logo w =
            (Throw (Error "Cluster strategy failed to produce at least 1 cluster."), w2)).
  { unfold launch_body, bind at 1, emit at 1, modify at 1.
    unfold bind at 1. rewrite getStartUpLogo_goes_on by done.
    revert Hscript. unfold tick_preamble, strategy.
    destruct (String.eqb (default "" (logo_contents logo)) ""); simpl; intros Hscript.
    - unfold bind at 1, ret at 1. unfold bind at 1, emit at 1, modify at 1.
      unfold bind at 1, gets at 1. unfold bind at 1, emit at 1, modify at 1.
      unfold bind at 1, gets at 1. unfold bind at 1.
      unfold logs, log in *. simpl in *. rewrite <- !app_assoc. simpl.
      rewrite Hscript. unfold bind, gets. by rewrite Hempty.
    - unfold bind at 1, emit at 1, modify at 1.
      unfold bind at 1, emit at 1, modify at 1.
      unfold bind at 1, gets at 1. unfold bind at 1, emit at 1, modify at 1.
      unfold bind at 1, gets at 1. unfold bind at 1.
      unfold logs, log in *. simpl in *. rewrite <- !app_assoc. simpl.
      rewrite Hscript. unfold bind, gets. by rewrite Hempty. }
  rewrite Hbody. unfold bind, gets. apply dispatch_handleRejection.
Qed.

Lemma tick_without_clusters_witness :
  let failed :=
    rejection_entry (Error "Cluster strategy failed to produce at least 1 cluster.") in
  let w := run [SetClusterStrategy no_clusters; Launch] fresh in
  let w' := run [SetClusterStrategy no_clusters; Launch]
                (boot sample_defaults true "token" (options_logo "logo.txt")) in
  launch_tick no_logo w = (Ok tt, logs [failed] (logs (tick_preamble "" "none") w))
  ∧ launch_tick some_logo w'
    = (Ok tt, logs [failed] (logs (tick_preamble "SHARDER" "none") w')).
Proof.
  intros failed w w'. split.
  - exact (tick_without_clusters w (logs (tick_preamble "" "none") w) no_logo
             (λ _, eq_refl) eq_refl eq_refl).
  - apply (tick_without_clusters w' (logs (tick_preamble "SHARDER" "none") w') some_logo);
      [discriminate | reflexivity | reflexivity].
Defined.

(** ** getCluster by either key *)

Lemma getCluster_two_keys_witness :
  let w := run [Call (AddCluster config0); Call (AddCluster config1);
                Call (StartCluster 0)] fresh in
  getCluster 0 w = (Ok (Some (0%nat, ClusterConfig.set_workerId 1 config0)), w)
  ∧ getCluster 1 w = (Ok (Some (0%nat, ClusterConfig.set_workerId 1 config0)), w).
Proof.
  intros w.
  apply (getCluster_two_keys w 0%nat (ClusterConfig.set_workerId 1 config0) 1);
    [reflexivity | reflexivity |].
  intros j c' Hj. lia.
Defined.

(** ** The worker's listener, further *)

(** X22. The worker's listener reacts to one message name only: a message
    without a [name], with a falsy one, or with any name other than
    "connect" leaves the Cluster and the process exactly as they were. *)
Theorem on_message_ignores (w : World) (this : Cluster.t) (message : object) :
  get message "name" ≠ VString "connect" →
  on_message this message w = (Ok this, w).
Proof. apply on_message_other_name. Qed.

Lemma on_message_ignores_witness :
  on_message Cluster.new stats_message worker_process = (Ok Cluster.new, worker_process)
  ∧ on_message Cluster.new {[ "name" := VString "statsUpdate" ]} worker_process
    = (Ok Cluster.new, worker_process).
Proof.
  split; apply on_message_ignores; discriminate.
Defined.

(** X23. [connect()] writes the shard range into the manager's own
    [clientOptions] object: after a [connect] message with a positive shard
    count the manager's [clientOptions] are the options the client was
    built with, so they carry the four shard options from then on; a
    second [connect] message builds a second client, which replaces the
    first in the Cluster's [client] field. *)
Theorem connect_writes_clientOptions (w : World) (this : Cluster.t) (message : object) (n : Z) :
  get message "name" = VString "connect" →
  get message "shardCount" = VNumber n →
  0 < n →
  ∃ client this' w',
    on_message this message w = (Ok this', w')
    ∧ Cluster.client this' = Some client
    ∧ ClusterManager.clientOptions (manager w') = client_options client
    ∧ ClusterManager.clientOptions (manager w') !! "maxShards" = Some (VNumber n)
    ∧ ∃ client2 this'' w'',
        on_message this' message w' = (Ok this'', w'')
        ∧ Cluster.client this'' = Some client2
        ∧ clients (trace w'') = clients (trace w) ++ [client; client2]
        ∧ client_options client2 = client_options client.
Proof.
  intros Hname Hcount Hpos.
  assert (Hgt : gt (get message "shardCount") 0 = true).
  { rewrite Hcount. unfold gt. simpl. by destruct (Z.ltb_spec 0 n); [| lia]. }
  rewrite on_message_connect by done. rewrite Hgt.
  rewrite connect_unfold. cbv zeta.
  eexists _, _, _. split; [reflexivity |].
  split; [reflexivity |]. split; [reflexivity |].
  split.
  { simpl. rewrite Hcount. apply lookup_union_Some_l. by simplify_map_eq. }
  rewrite on_message_connect by done. rewrite Hgt.
  rewrite connect_unfold. cbv zeta.
  eexists _, _, _. split; [reflexivity |].
  split; [reflexivity |].
  split.
  { simpl trace. rewrite !clients_app. unfold connect_effects. simpl.
    by rewrite <- app_assoc. }
  simpl. unfold ClusterManager.clientOptions. simpl.
  by rewrite map_union_assoc, map_union_idemp.
Qed.

Lemma connect_writes_clientOptions_witness :
  ∃ this' w',
    on_message Cluster.new (connect_message 4) worker_process = (Ok this', w')
    ∧ ClusterManager.clientOptions (manager w') !! "maxShards" = Some (VNumber 4).
Proof.
  destruct (connect_writes_clientOptions worker_process Cluster.new (connect_message 4) 4
              eq_refl eq_refl ltac:(lia))
    as (client & this' & w' & Hrun & _ & _ & Hmax & _).
  exists this', w'. split; [exact Hrun | exact Hmax].
Defined.

(** X24. [launch] in a worker process spawns one Cluster, and a [connect]
    message with a positive shard count that then arrives makes the process
    create exactly one gateway client, with the manager's token and the
    constructor's [clientOptions] overlaid with the shard options, and
    connect it once. In the master process [launch] spawns no Cluster and
    the same message creates no client. *)
Theorem worker_launch_then_connect (d : Defaults) (token : string)
    (options : Options.partial) (message : object) (n : Z) :
  get message "name" = VString "connect" →
  get message "shardCount" = VNumber n →
  0 < n →
  let worker := run [Launch; ProcessMessage message] (boot d false token options) in
  let master := run [Launch; ProcessMessage message] (boot d true token options) in
  let client :=
    {| client_token := token;
       client_options :=
         {[ "autoreconnect" := VBool true;
            "firstShardID" := get message "firstShardID";
            "lastShardID" := get message "lastShardID";
            "maxShards" := VNumber n ]}
         ∪ default ∅ (Options.p_clientOptions options) |} in
  clients (trace worker) = [client]
  ∧ connects (trace worker) = 1%nat
  ∧ Cluster.client <$> agents worker = [Some client]
  ∧ clients (trace master) = []
  ∧ agents master = [].
Proof.
  intros Hname Hcount Hpos worker master client.
  assert (Hgt : gt (get message "shardCount") 0 = true).
  { rewrite Hcount. unfold gt. simpl. by destruct (Z.ltb_spec 0 n); [| lia]. }
  assert (Hworker : worker =
            snd (process_message message (run [Launch] (boot d false token options)))).
  { unfold worker.
    change (run [Launch; ProcessMessage message] (boot d false token options))
      with (match process_message message (run [Launch] (boot d false token options)) with
            | (Exit _, w') => w'
            | (_, w') => w'
            end).
    by destruct (process_message _ _) as [[[] | |] ?]. }
  split; [| split; [| split]].
  - rewrite Hworker. unfold process_message, bind at 1, gets at 1. simpl length.
    simpl deliver. unfold bind at 1, gets at 1. simpl (agents _ !! _).
    unfold bind at 1. rewrite on_message_connect by done. rewrite Hgt.
    rewrite connect_unfold. cbv zeta. simpl. rewrite Hcount. reflexivity.
  - rewrite Hworker. unfold process_message, bind at 1, gets at 1. simpl length.
    simpl deliver. unfold bind at 1, gets at 1. simpl (agents _ !! _).
    unfold bind at 1. rewrite on_message_connect by done. rewrite Hgt.
    rewrite connect_unfold. cbv zeta. simpl. reflexivity.
  - rewrite Hworker. unfold process_message, bind at 1, gets at 1. simpl length.
    simpl deliver. unfold bind at 1, gets at 1. simpl (agents _ !! _).
    unfold bind at 1. rewrite on_message_connect by done. rewrite Hgt.
    rewrite connect_unfold. cbv zeta. simpl. rewrite Hcount. reflexivity.
  - split; reflexivity.
Qed.

Lemma worker_launch_then_connect_witness :
  connects (trace (run [Launch; ProcessMessage (connect_message 4)]
                       (boot sample_defaults false "token" Options.empty))) = 1%nat
  ∧ clients (trace (run [Launch; ProcessMessage (connect_message 4)]
                        (boot sample_defaults true "token" Options.empty))) = [].
Proof.
  destruct (worker_launch_then_connect sample_defaults "token" Options.empty
              (connect_message 4) 4 eq_refl eq_refl ltac:(lia))
    as (_ & Hconnects & _ & Hmaster & _).
  split; [exact Hconnects | exact Hmaster].
Defined.

(** X21. When no config before the spawned one carries the spawned one's
    cluster id or worker id (as its id or as its worker id), [getCluster]
    returns the spawned config for both keys. *)
Theorem getCluster_either_key (w : World) (ref : nat) (c : ClusterConfig.t) (worker : Z) :
  ClusterManager.clusters_ (manager w) !! ref = Some c →
  ClusterConfig.workerId c = Some worker →
  (∀ (j : nat) c', (j < ref)%nat → ClusterManager.clusters_ (manager w) !! j = Some c' →
     ¬ by_id_or_worker (ClusterConfig.id c) c' ∧ ¬ by_id_or_worker worker c') →
  getCluster (ClusterConfig.id c) w = (Ok (Some (ref, c)), w)
  ∧ getCluster worker w = (Ok (Some (ref, c)), w).
Proof. apply getCluster_two_keys. Qed.

Lemma getCluster_either_key_witness :
  let w := run [Call (AddCluster config0); Call (AddCluster config1);
                Call (StartCluster 0)] fresh in
  getCluster 0 w = (Ok (Some (0%nat, ClusterConfig.set_workerId 1 config0)), w)
  ∧ getCluster 1 w = (Ok (Some (0%nat, ClusterConfig.set_workerId 1 config0)), w).
Proof.
  intros w.
  apply (getCluster_either_key w 0%nat (ClusterConfig.set_workerId 1 config0) 1);
    [reflexivity | reflexivity |].
  intros j c' Hj. lia.
Defined.

(** ** The worker registry *)

Lemma registered_forked_startCluster (clusterId : Z) :
  preserves registered_forked (startCluster clusterId).
Proof.
  intros w [Hnext Hw]. unfold startCluster, bind at 1, getCluster, gets at 1.
  destruct (list_find _ _) as [[ref c] |]; [| done].
  unfold fork, bind, gets, modify, emit, ret, throw. simpl.
  destruct (cluster_isMaster (node w)); simpl; [| done].
  split; simpl; [lia |].
  intros k. rewrite lookup_insert_is_Some.
  intros [<- | [_ Hk]]; [lia |]. specialize (Hw k Hk). lia.
Qed.

Lemma registered_forked_perform (c : call) : preserves registered_forked (perform c).
Proof.
  pose proof registered_forked_startCluster as Hstart.
  assert (Hinfo : ∀ fuel start e v, preserves registered_forked (fetchInfo_rec fuel start e v)).
  { induction fuel as [| fuel IH]; intros; simpl;
      unfold stack_overflow, cluster_worker, send; frame. }
  assert (Hstats : ∀ fuel l start, preserves registered_forked (updateStats_rec fuel l start)).
  { induction fuel as [| fuel IH]; intros; simpl; unfold stack_overflow; frame. }
  assert (Hcast : ∀ fuel start m, preserves registered_forked (broadcast_rec fuel start m)).
  { induction fuel as [| fuel IH]; intros; simpl;
      unfold stack_overflow, cluster_worker, send; frame. }
  destruct c; simpl;
    unfold addCluster, removeCluster,
      getCluster, fetchInfo, updateStats, broadcast, sendTo, isMaster,
      cluster_worker, sendWebhook, fetchShardCount, fetchGuildCount; frame.
Qed.

Lemma registered_forked_run_script (s : script) : preserves registered_forked (run_script s).
Proof.
  induction s as [| e | c k IH]; simpl; [frame | frame |].
  intros w Hw. pose proof (registered_forked_perform c w Hw) as Hc.
  destruct (perform c w) as [[a | e | code] w']; simpl in *;
    [by apply IH | by apply IH | done].
Qed.

Lemma registered_forked_step (o : op) : preserves registered_forked (step o).
Proof.
  pose proof registered_forked_perform as Hperform.
  pose proof registered_forked_run_script as Hscript.
  assert (Hdeliver : ∀ message n i, preserves registered_forked (deliver n i message)).
  { intros message. induction n as [| n IH]; intros i; simpl; [frame |].
    apply preserves_bind; [frame | intros [this |]; [| frame]].
    apply preserves_bind; [| intros ?; frame].
    unfold on_message.
    destruct (negb _); [frame |]. destruct (strict_eq _ _); [| frame].
    cbv zeta. destruct (gt _ _); [| frame]. unfold connect. frame. }
  destruct o; simpl;
    unfold setClusterStrategy, setConnectStrategy, setReconnectStrategy,
      launch, isMaster, spawn, launch_tick, launch_body, getStartUpLogo,
      handleRejection, on_worker_message, on_exit, restartCluster, on_execute,
      cluster_worker, send, process_message; frame.
Qed.

(** X25. In every state the manager reaches, the keys of [workers] are
    worker ids that Node has already handed out (from 1 up to, not
    including, the id of the next worker), so the next worker's id is not
    registered yet: a [startCluster] that forks always adds a new entry to
    [workers] and never overwrites one. *)
Theorem workers_registry_fresh (d : Defaults) (master : bool) (token : string)
    (options : Options.partial) (ops : list op) :
  let w := run ops (boot d master token options) in
  registered_forked w
  ∧ ClusterManager.workers (manager w) !! next_worker (node w) = None.
Proof.
  assert (Hrun : ∀ ops w, registered_forked w → registered_forked (run ops w)).
  { clear ops. induction ops as [| o ops IH]; intros w Hw; simpl; [done |].
    pose proof (registered_forked_step o w Hw) as Ho.
    destruct (step o w) as [[[] | e | code] w']; simpl in *; [by apply IH | by apply IH | done]. }
  intros w.
  assert (Hw : registered_forked w).
  { apply Hrun. split; simpl; [lia |]. intros k. rewrite lookup_empty. by intros []. }
  split; [done |].
  destruct (ClusterManager.workers (manager w) !! next_worker (node w)) eqn:Hk; [| done].
  destruct Hw as [_ Hw]. specialize (Hw _ (mk_is_Some _ _ Hk)). lia.
Qed.
